(** * Personal workout tracker: timer hook and session aggregation

    A shallow embedding of the stopwatch hook [useTimer]
    (hooks/useTimer.ts), of the handlers of the [WorkoutTimer] and
    [ManualEntry] components that turn timer readings and form input
    into sessions, and of the aggregation code of [WorkoutService],
    [Calendar] and [Analytics].

    Conventions of the embedding.
    - A JavaScript instant ([Date.now()], [d.getTime()]) is a [Z]:
      milliseconds since the epoch.  A [start_time] column holds an ISO
      string; the embedding keeps the instant that [new Date(s)] reads
      from it (unparsable strings are outside the model).
    - Integer-valued numbers (durations, counters, seconds) are [Z];
      the three averages of [WorkoutStats] are quotients and are kept
      as exact rationals [Q] (rounding of IEEE doubles is not modelled).
    - React state is a record; every callback is a function from the
      state it closes over, and the clock reading it makes, to the next
      state.  Nothing is assumed of the clock: a history may hold
      readings that go back, and a property that needs them not to
      says so.
    - The viewer's time zone is a fixed offset from UTC; a zone that
      changes its offset (daylight saving) is outside the model.
    - Strings are strings of ASCII characters, and an integer read
      from digits is exact, as it is in the host language up to
      [Number.MAX_SAFE_INTEGER].
    - A plain object used as a dictionary is an association list in
      insertion order; the keys on which the two differ are set apart
      by [JSObject.ordinaryKey]. *)

From Stdlib Require Import ZArith QArith Qminmax Lia Lqa Ascii String.
From stdpp Require Import base gmap sets list strings pretty.

Local Open Scope Z_scope.

(** The sum of a list of integers. *)
Definition Zsum (xs : list Z) : Z := foldr Z.add 0 xs.

(** ** hooks/useTimer.ts *)

Module Timer.

(** The five [useState] cells of [useTimer]. *)
Record TimerState : Type := mkTimer {
  isRunning : bool;
  isPaused : bool;
  startTime : option Z;
  elapsedTime : Z;
  pausedTime : Z
}.

(** [useState(false)], [useState(false)], [useState(null)],
    [useState(0)], [useState(0)]. *)
Definition initial : TimerState := mkTimer false false None 0 0.

(** [Math.floor((now - startTime.getTime()) / 1000) + pausedTime] *)
Definition wallClockElapsed (now start paused : Z) : Z :=
  (now - start) / 1000 + paused.

(** The guard shared by the interval effect and by [pauseTimer]:
    [isRunning && !isPaused && startTime]; it yields the segment
    start when it passes. *)
Definition runningSegment (st : TimerState) : option Z :=
  if isRunning st && negb (isPaused st) then startTime st else None.

(** The [setInterval] callback installed by the effect. *)
Definition tick (now : Z) (st : TimerState) : TimerState :=
  match runningSegment st with
  | Some start =>
      mkTimer (isRunning st) (isPaused st) (startTime st)
              (wallClockElapsed now start (pausedTime st)) (pausedTime st)
  | None => st
  end.

Definition startTimer (now : Z) (_ : TimerState) : TimerState :=
  mkTimer true false (Some now) 0 0.

Definition pauseTimer (now : Z) (st : TimerState) : TimerState :=
  match runningSegment st with
  | Some start =>
      mkTimer (isRunning st) true (startTime st) (elapsedTime st)
              (wallClockElapsed now start (pausedTime st))
  | None => st
  end.

Definition resumeTimer (now : Z) (st : TimerState) : TimerState :=
  if isPaused st
  then mkTimer (isRunning st) false (Some now) (elapsedTime st) (pausedTime st)
  else st.

Definition stopTimer (_ : TimerState) : TimerState :=
  mkTimer false false None 0 0.

Definition resetTimer (_ : TimerState) : TimerState :=
  mkTimer false false None 0 0.

(** What can happen to the hook: one of its five callbacks is called,
    or the interval fires. *)
Inductive Event : Type := Start | Pause | Resume | Stop | Reset | Tick.

#[global] Instance Event_eq_dec : EqDecision Event.
Proof. solve_decision. Defined.

Definition step (now : Z) (e : Event) (st : TimerState) : TimerState :=
  match e with
  | Start => startTimer now st
  | Pause => pauseTimer now st
  | Resume => resumeTimer now st
  | Stop => stopTimer st
  | Reset => resetTimer st
  | Tick => tick now st
  end.

(** A history: events with the clock reading at which each happens,
    oldest first. *)
Definition Trace : Type := list (Z * Event).

Definition run (tr : Trace) (st : TimerState) : TimerState :=
  fold_left (fun s ev => step ev.1 ev.2 s) tr st.

(** The three states of the stopwatch, read off the two flags the way
    the component does ([!isRunning && !isPaused], [isPaused]). *)
Inductive Phase : Type := Idle | Running | Paused.

Definition phase (st : TimerState) : Phase :=
  if isPaused st then Paused
  else if isRunning st then Running
  else Idle.

(** The clock never goes back along a history. *)
Fixpoint clockMonotone (from : Z) (tr : Trace) : Prop :=
  match tr with
  | [] => True
  | (t, _) :: tr' => from <= t /\ clockMonotone t tr'
  end.

Definition clockOrdered (tr : Trace) : Prop :=
  match tr with
  | [] => True
  | (t0, _) :: _ => clockMonotone t0 tr
  end.

(** The instant of the last event ([from] when there is none). *)
Definition lastInstant (from : Z) (tr : Trace) : Z :=
  fold_left (fun _ ev => ev.1) tr from.

(** The calls among the events of a history (the ticks dropped). *)
Definition calls (tr : Trace) : Trace :=
  List.filter (fun ev => negb (bool_decide (ev.2 = Tick))) tr.

(** A workout as the specification describes it, a [start] followed by
    [pause] and [resume] in turn: the start at [t0], and the instants
    [ts] of the calls that follow, a [pause] first. *)
Fixpoint toggles (running : bool) (ts : list Z) : Trace :=
  match ts with
  | [] => []
  | t :: ts' =>
      (t, if running then Pause else Resume) :: toggles (negb running) ts'
  end.

Definition workout (t0 : Z) (ts : list Z) : Trace :=
  (t0, Start) :: toggles true ts.

(** The lengths, in milliseconds, of the running intervals of such a
    workout when it is read at [stop]: from the start or a [resume] to
    the next [pause], and from the last [resume] to [stop] when no
    [pause] follows it.  The breaks contribute nothing. *)
Fixpoint runningIntervals (running : bool) (from : Z) (ts : list Z) (stop : Z)
  : list Z :=
  match ts with
  | [] => if running then [stop - from] else []
  | t :: ts' =>
      if running then (t - from) :: runningIntervals false t ts' stop
      else runningIntervals true t ts' stop
  end.

(** Time spent running, in milliseconds. *)
Definition runningMillis (t0 : Z) (ts : list Z) (stop : Z) : Z :=
  Zsum (runningIntervals true t0 ts stop).

(** Whole seconds of each running interval, added up. *)
Definition runningWholeSeconds (t0 : Z) (ts : list Z) (stop : Z) : Z :=
  Zsum (map (fun d => d / 1000) (runningIntervals true t0 ts stop)).

(** The fractions of a second that the running intervals leave over. *)
Definition lostMillis (t0 : Z) (ts : list Z) (stop : Z) : Z :=
  Zsum (map (fun d => d mod 1000) (runningIntervals true t0 ts stop)).

(** The interval firing at each of the instants [ts]. *)
Definition ticksAt (ts : list Z) : Trace := map (fun t => (t, Tick)) ts.

(** The scenario of the specification, start at 0 s, pause at 10 s,
    resume at 20 s, pause at 25 s, with the interval that the effect
    installs 4 ms after the start and after the resume firing every
    second while the timer runs. *)
Definition scenario : Trace :=
  (0, Start)
  :: ticksAt [1004; 2004; 3004; 4004; 5004; 6004; 7004; 8004; 9004]
  ++ (10000, Pause) :: (20000, Resume)
  :: ticksAt [21004; 22004; 23004; 24004]
  ++ [(25000, Pause)].

(** The reading that the specification calls [elapsed()], taken from
    its words: the whole seconds of the current segment on top of the
    accumulated baseline while running, the frozen baseline while
    paused, 0 while idle. *)
Definition wallClockReading (now : Z) (st : TimerState) : Z :=
  match phase st with
  | Idle => 0
  | Running =>
      match startTime st with
      | Some start => wallClockElapsed now start (pausedTime st)
      | None => pausedTime st
      end
  | Paused => pausedTime st
  end.

(** Two states that differ at most in the displayed [elapsedTime]. *)
Definition sameCore (st st' : TimerState) : Prop :=
  isRunning st = isRunning st' /\ isPaused st = isPaused st' /\
  startTime st = startTime st' /\ pausedTime st = pausedTime st'.

(** What holds of the state after any history whose last event
    happened at [t], the clock never having gone back. *)
Definition consistent (t : Z) (st : TimerState) : Prop :=
  match phase st with
  | Idle =>
      isRunning st = false /\ startTime st = None /\
      elapsedTime st = 0 /\ pausedTime st = 0
  | Running =>
      exists start, startTime st = Some start /\ start <= t /\
        0 <= pausedTime st /\
        0 <= elapsedTime st <= wallClockElapsed t start (pausedTime st)
  | Paused =>
      isRunning st = true /\ 0 <= elapsedTime st <= pausedTime st
  end.

End Timer.

(** ** Library functions of the host language *)

Module JSNumber.

(** [Math.round(n / d)] for integers [n] and [d > 0]: the integer
    nearest to the quotient, a tie going up ([floor(n/d + 1/2)]). *)
Definition roundDiv (n d : Z) : Z := (2 * n + d) / (2 * d).

(** [Math.ceil(n / d)] for integers [n] and [d > 0]. *)
Definition ceilDiv (n d : Z) : Z := - ((- n) / d).

(** [Number.MAX_SAFE_INTEGER]: up to it, and down to its opposite,
    every integer is a number of the host language. *)
Definition MAX_SAFE_INTEGER : Z := 2 ^ 53 - 1.

(** White space that [parseInt] and [trim] skip, among the ASCII
    characters: tab, line feed, vertical tab, form feed, carriage
    return and space.  The host language also skips white space beyond
    ASCII (U+00A0, U+FEFF, U+2028, U+2029 and the space separators of
    Unicode); strings that hold such characters are outside the model
    (see [JSString.isAscii]). *)
Definition isWhiteSpace (c : ascii) : bool :=
  let n := nat_of_ascii c in
  ((9 <=? n) && (n <=? 13))%nat || (n =? 32)%nat.

Fixpoint trimStart (s : string) : string :=
  match s with
  | String c s' => if isWhiteSpace c then trimStart s' else s
  | EmptyString => s
  end.

(** Value of a character as a digit, up to base 36. *)
Definition digitValue (c : ascii) : option Z :=
  let n := Z.of_nat (nat_of_ascii c) in
  if (48 <=? n) && (n <=? 57) then Some (n - 48)
  else if (97 <=? n) && (n <=? 122) then Some (n - 87)
  else if (65 <=? n) && (n <=? 90) then Some (n - 55)
  else None.

(** The longest prefix of [s] made of digits of [radix], read as a
    number on top of [acc]; [None] when there is no digit at all. *)
Fixpoint readDigits (radix : Z) (s : string) (acc : option Z) : option Z :=
  match s with
  | String c s' =>
      match digitValue c with
      | Some v =>
          if v <? radix
          then readDigits radix s' (Some (default 0 acc * radix + v))
          else acc
      | None => acc
      end
  | EmptyString => acc
  end.

(** [parseInt(s)] with no radix argument; [None] is [NaN].  The result
    is the exact integer that the digits denote.  That is the number
    which the host language returns as long as the integer is at most
    [MAX_SAFE_INTEGER] in absolute value; beyond it the host returns
    the nearest double, which the model does not follow. *)
Definition parseInt (s : string) : option Z :=
  let s1 := trimStart s in
  let '(sign, s2) :=
    match s1 with
    | String "-"%char r => (-1, r)
    | String "+"%char r => (1, r)
    | _ => (1, s1)
    end in
  let '(radix, s3) :=
    match s2 with
    | String "0"%char (String "x"%char r) => (16, r)
    | String "0"%char (String "X"%char r) => (16, r)
    | _ => (10, s2)
    end in
  (fun n => sign * n) <$> readDigits radix s3 None.

End JSNumber.

Module JSString.

(** [n.toString()], and an integer interpolated in a template literal:
    its decimal digits, after a minus sign when it is negative. *)
Definition toString (n : Z) : string := pretty n.

(** The ten characters that [toString] prints for a digit. *)
Definition digitChar (c : ascii) : Prop :=
  exists d, (d < 10)%N /\ c = pretty_N_char d.

Fixpoint repeatChar (n : nat) (c : ascii) : string :=
  match n with
  | O => EmptyString
  | S n' => String c (repeatChar n' c)
  end.

(** [s.padStart(target, c)] for a pad string [c] of one character. *)
Definition padStart (target : nat) (c : ascii) (s : string) : string :=
  repeatChar (target - String.length s) c +:+ s.

(** The strings of ASCII characters.  On these the white space of the
    host language is [JSNumber.isWhiteSpace]. *)
Fixpoint isAscii (s : string) : bool :=
  match s with
  | EmptyString => true
  | String c s' => (nat_of_ascii c <? 128)%nat && isAscii s'
  end.

(** [s.trimEnd()], for a string of ASCII characters. *)
Fixpoint trimEnd (s : string) : string :=
  match s with
  | EmptyString => EmptyString
  | String c s' =>
      match trimEnd s' with
      | EmptyString =>
          if JSNumber.isWhiteSpace c then EmptyString else String c EmptyString
      | rest => String c rest
      end
  end.

(** [s.trim()], for a string of ASCII characters: the white space
    stripped is that of [JSNumber.isWhiteSpace]. *)
Definition trim (s : string) : string := trimEnd (JSNumber.trimStart s).

End JSString.

Module JSDate.

(** [1000 * 60 * 60 * 24] *)
Definition msPerDay : Z := 1000 * 60 * 60 * 24.

(** The viewer's time zone is a fixed offset [tz] in milliseconds
    (local time = UTC + [tz]); daylight saving is not modelled.
    A calendar date is identified by its day number, counted from
    1970-01-01; the strings that [toDateString] and [toISOString]
    print are one-to-one renderings of that number. *)

(** [d.toDateString()]: the local calendar date of the instant. *)
Definition toDateString (tz t : Z) : Z := (t + tz) / msPerDay.

(** [d.getDay()]: local day of the week, Sunday = 0
    (1970-01-01 was a Thursday). *)
Definition getDay (tz t : Z) : Z := (toDateString tz t + 4) mod 7.

(** [w.setDate(d.getDate() - n)] on a copy [w] of [d]: the same local
    time of day, [n] calendar days earlier. *)
Definition daysBefore (n t : Z) : Z := t - n * msPerDay.

(** [d.toISOString().split('T')[0]]: the UTC calendar date. *)
Definition isoDate (t : Z) : Z := t / msPerDay.

(** [new Date(key)] for a date-only ISO string: UTC midnight. *)
Definition ofIsoDate (day : Z) : Z := day * msPerDay.

(** [new Date(year, month, day)]: local midnight of the calendar date
    with day number [day].  With a fixed offset every local day has a
    midnight and lasts 24 hours; a zone that changes its offset within
    the period looked at is outside the model. *)
Definition localMidnight (tz day : Z) : Z := day * msPerDay - tz.

End JSDate.

(** A plain object used as a dictionary with numeric values.  Its keys
    here are dates and names, which [Object.entries] lists in the order
    of their first assignment; an association list keeps that order.
    (Keys that read as array indices, which are listed first, and keys
    that [Object.prototype] defines are outside the model.) *)

Module JSObject.
Section Obj.
Context {K : Type} `{EqDecision K}.

Definition t : Type := list (K * Z).

(** [o[k]] *)
Fixpoint get (o : t) (k : K) : option Z :=
  match o with
  | [] => None
  | (k', v) :: o' => if decide (k = k') then Some v else get o' k
  end.

(** [o[k] = v] *)
Fixpoint set (o : t) (k : K) (v : Z) : t :=
  match o with
  | [] => [(k, v)]
  | (k', v') :: o' =>
      if decide (k = k') then (k', v) :: o' else (k', v') :: set o' k v
  end.

(** [o[k] = (o[k] || 0) + d] *)
Definition accumulate (o : t) (k : K) (d : Z) : t :=
  set o k (default 0 (get o k) + d).

(** [Object.entries(o)] *)
Definition entries (o : t) : list (K * Z) := o.
End Obj.

(** The association list above is a plain object as far as its own
    properties in insertion order go.  A plain object differs from it
    on two kinds of keys.  The names that it inherits from
    [Object.prototype]: on an object without entries [o[k]] is then a
    function, or the prototype, and not [undefined], and an assignment
    to [__proto__] creates no entry. *)
Definition inheritedKeys : list string :=
  ["constructor"; "hasOwnProperty"; "isPrototypeOf"; "propertyIsEnumerable";
   "toLocaleString"; "toString"; "valueOf"; "__proto__";
   "__defineGetter__"; "__defineSetter__";
   "__lookupGetter__"; "__lookupSetter__"]%string.

(** And the strings of decimal digits: the array indices are among
    them, and [Object.entries] lists those first, in numeric order,
    whenever they were inserted. *)
Fixpoint isDigits (s : string) : bool :=
  match s with
  | EmptyString => true
  | String c s' =>
      let n := nat_of_ascii c in
      ((48 <=? n) && (n <=? 57))%nat && isDigits s'
  end.

(** The keys on which the association list and the plain object
    agree. *)
Definition ordinaryKey (k : string) : bool :=
  negb (bool_decide (k ∈ inheritedKeys)) && negb (isDigits k).

(** [xs.slice(-n)]: the last [n] elements. *)
Definition sliceLast {A : Type} (n : nat) (xs : list A) : list A :=
  drop (length xs - n) xs.
End JSObject.

(** ** types/workout.ts *)

Module WorkoutType.
Record t : Type := mk {
  id : string;
  name : string;
  userId : string;
  createdAt : string
}.
End WorkoutType.

Module WorkoutSession.
(** [startTime] is the instant its ISO string denotes. *)
Record t : Type := mk {
  id : string;
  workoutTypeId : string;
  userId : string;
  startTime : Z;
  durationMinutes : Z;
  createdAt : string
}.
End WorkoutSession.

Module WorkoutStats.
Record t : Type := mk {
  totalTime : Z;
  totalSessions : Z;
  trainingDays : Z;
  dailyAverage : Q;
  weeklyAverage : Q;
  monthlyAverage : Q
}.
End WorkoutStats.

(** ** services/workoutService.ts *)

Module WorkoutService.

(** The argument of [createWorkoutSession]. *)
Record NewSession : Type := mkNewSession {
  workoutTypeId : string;
  startTime : Z;
  durationMinutes : Z
}.

(** A row of [select('duration_minutes, start_time')]. *)
Record StatsRow : Type := mkStatsRow {
  duration_minutes : Z;
  start_time : Z
}.

(** The columns that the statistics query keeps of a session. *)
Definition statsRow (s : WorkoutSession.t) : StatsRow :=
  mkStatsRow (WorkoutSession.durationMinutes s) (WorkoutSession.startTime s).

(** [Math.min(...xs)] and [Math.max(...xs)] of a list with head [x]. *)
Definition mathMin (x : Z) (xs : list Z) : Z := fold_left Z.min xs x.
Definition mathMax (x : Z) (xs : list Z) : Z := fold_left Z.max xs x.

(** [new Set(sessions.map(s => new Date(s.start_time).toDateString()))] *)
Definition uniqueDays (tz : Z) (sessions : list StatsRow) : gset Z :=
  list_to_set (map (fun s => JSDate.toDateString tz (start_time s)) sessions).

(** The body of [getWorkoutStats] after the query has returned
    [sessions]; [tz] is the viewer's time zone.  The test
    [sessions.length === 0] is made on the list of dates, which names
    the first date for [Math.min] and [Math.max]. *)
Definition getWorkoutStats (tz : Z) (sessions : list StatsRow) : WorkoutStats.t :=
  match map start_time sessions with
  | [] => WorkoutStats.mk 0 0 0 0%Q 0%Q 0%Q
  | d :: dates =>
      let totalTime :=
        fold_left (fun sum session => sum + duration_minutes session) sessions 0 in
      let totalSessions := Z.of_nat (length sessions) in
      let trainingDays := Z.of_nat (size (uniqueDays tz sessions)) in
      let dailyAverage :=
        if 0 <? trainingDays
        then (inject_Z totalTime / inject_Z trainingDays)%Q
        else 0%Q in
      let minDate := mathMin d dates in
      let maxDate := mathMax d dates in
      let daysDiff := JSNumber.ceilDiv (maxDate - minDate) (1000 * 60 * 60 * 24) in
      let weeksDiff := Qmax 1 (inject_Z daysDiff / 7) in
      let monthsDiff := Qmax 1 (inject_Z daysDiff / 30) in
      let weeklyAverage := (inject_Z totalTime / weeksDiff)%Q in
      let monthlyAverage := (inject_Z totalTime / monthsDiff)%Q in
      WorkoutStats.mk totalTime totalSessions trainingDays
                      dailyAverage weeklyAverage monthlyAverage
  end.

(** The total of the durations of a list of rows. *)
Definition totalMinutes (sessions : list StatsRow) : Z :=
  Zsum (map duration_minutes sessions).

(** The spread in days between a first instant [lo] and a last instant
    [hi], rounded up. *)
Definition dateRangeDays (lo hi : Z) : Z :=
  JSNumber.ceilDiv (hi - lo) JSDate.msPerDay.

(** The averages as the specification words them: the total over the
    number of weeks (of months) rounded up to a whole number, at
    least 1. *)
Definition specWeeklyAverage (totalTime days : Z) : Q :=
  (inject_Z totalTime / inject_Z (Z.max 1 (JSNumber.ceilDiv days 7)))%Q.
Definition specMonthlyAverage (totalTime days : Z) : Q :=
  (inject_Z totalTime / inject_Z (Z.max 1 (JSNumber.ceilDiv days 30)))%Q.

(** The statistics of the stored sessions: the query of
    [getWorkoutStats] reads the table that [getWorkoutSessions] lists. *)
Definition computeStats (tz : Z) (sessions : list WorkoutSession.t) : WorkoutStats.t :=
  getWorkoutStats tz (map statsRow sessions).

End WorkoutService.

(** ** components/Calendar.tsx *)

Module Calendar.

Definition getSessionsForDate (tz : Z) (sessions : list WorkoutSession.t)
    (date : Z) : list WorkoutSession.t :=
  let dateString := JSDate.toDateString tz date in
  List.filter
    (fun session =>
       bool_decide (JSDate.toDateString tz (WorkoutSession.startTime session) = dateString))
    sessions.

Definition getTotalDurationForDate (tz : Z) (sessions : list WorkoutSession.t)
    (date : Z) : Z :=
  let dateSessions := getSessionsForDate tz sessions date in
  fold_left (fun total session => total + WorkoutSession.durationMinutes session)
            dateSessions 0.

(** The per-day totals of a list of dates, one cell each. *)
Definition dayTotals (tz : Z) (sessions : list WorkoutSession.t)
    (dates : list Z) : list Z :=
  map (getTotalDurationForDate tz sessions) dates.

(** [formatDuration]; Analytics.tsx and Dashboard.tsx carry the same
    function.  [minutes % 60] has the sign of [minutes]. *)
Definition formatDuration (minutes : Z) : string :=
  let hours := minutes / 60 in
  let mins := Z.rem minutes 60 in
  if 0 <? hours
  then JSString.toString hours +:+ "h " +:+ JSString.toString mins +:+ "m"
  else JSString.toString mins +:+ "m".

Definition getIntensityClass (duration : Z) : string :=
  if duration =? 0 then EmptyString
  else if duration <? 30 then "bg-green-200 text-green-800"
  else if duration <? 60 then "bg-green-300 text-green-900"
  else if duration <? 90 then "bg-green-400 text-green-900"
  else "bg-green-500 text-white".

Section Grid.
(** The calendar arithmetic of the host's [Date], for the month of an
    instant [date]: the day number of its first day, which is the date
    of [new Date(year, month, 1)], and the day of the month of its last
    day, [new Date(year, month + 1, 0).getDate()]. *)
Variable firstOfMonth : Z -> Z.
Variable lastOfMonth : Z -> Z.

(** [getDaysInMonth]: a cell is [None] for [null] and otherwise holds
    the instant of [new Date(year, month, day)], the local midnight of
    the [day]-th day of the month, each computed from its own calendar
    date.  The zone is the fixed offset [tz] of [JSDate]. *)
Definition getDaysInMonth (tz date : Z) : list (option Z) :=
  let firstDay := JSDate.localMidnight tz (firstOfMonth date) in
  let daysInMonth := lastOfMonth date in
  let startingDayOfWeek := JSDate.getDay tz firstDay in
  replicate (Z.to_nat startingDayOfWeek) None
  ++ map (fun day => Some (JSDate.localMidnight tz (firstOfMonth date + (day - 1))))
         (seqZ 1 daysInMonth).

(** The totals that the grid shows, blank cells left out. *)
Definition monthTotals (tz : Z) (sessions : list WorkoutSession.t)
    (date : Z) : list Z :=
  omap (fun cell => getTotalDurationForDate tz sessions <$> cell)
       (getDaysInMonth tz date).
End Grid.

End Calendar.

(** ** components/Analytics.tsx *)

Module Analytics.

Record WeekPoint : Type := mkWeekPoint { week : Z; duration : Z }.

(** The key under which a session is filed:
    [weekStart.setDate(date.getDate() - date.getDay())], then
    [weekStart.toISOString().split('T')[0]]. *)
Definition weekKey (tz : Z) (session : WorkoutSession.t) : Z :=
  let date := WorkoutSession.startTime session in
  let weekStart := JSDate.daysBefore (JSDate.getDay tz date) date in
  JSDate.isoDate weekStart.

(** The dictionary built by the [forEach] of [getWeeklyData]. *)
Definition weeklyTotals (tz : Z) (sessions : list WorkoutSession.t) : JSObject.t :=
  fold_left
    (fun weeklyData session =>
       JSObject.accumulate weeklyData (weekKey tz session)
                           (WorkoutSession.durationMinutes session))
    sessions [].

(** [getWeeklyData]; the label of a point, which the source prints as
    day and month, is kept as the local date of [new Date(week)]. *)
Definition getWeeklyData (tz : Z) (sessions : list WorkoutSession.t) : list WeekPoint :=
  JSObject.sliceLast 8
    (map (fun '(week, duration) =>
            mkWeekPoint (JSDate.toDateString tz (JSDate.ofIsoDate week)) duration)
         (JSObject.entries (weeklyTotals tz sessions))).

Record TypeSlice : Type := mkTypeSlice {
  name : string;
  slice_duration : Z;
  color : string
}.

(** [workoutTypes.find(t => t.id === session.workoutTypeId)] *)
Definition findType (workoutTypes : list WorkoutType.t)
    (session : WorkoutSession.t) : option WorkoutType.t :=
  List.find
    (fun t => String.eqb (WorkoutType.id t) (WorkoutSession.workoutTypeId session))
    workoutTypes.

(** [workoutType?.name || 'Unknown']: the empty name is falsy too. *)
Definition typeName (workoutTypes : list WorkoutType.t)
    (session : WorkoutSession.t) : string :=
  match findType workoutTypes session with
  | Some workoutType =>
      match WorkoutType.name workoutType with
      | EmptyString => "Unknown"%string
      | name => name
      end
  | None => "Unknown"%string
  end.

(** The dictionary built by the [forEach] of [getWorkoutTypeData].  It
    is the plain object [typeData] of the source as long as every name
    filed is a [JSObject.ordinaryKey]; a type named after a property of
    [Object.prototype], or by digits only, is outside the model. *)
Definition typeTotals (workoutTypes : list WorkoutType.t)
    (sessions : list WorkoutSession.t) : JSObject.t :=
  fold_left
    (fun typeData session =>
       JSObject.accumulate typeData (typeName workoutTypes session)
                           (WorkoutSession.durationMinutes session))
    sessions [].

Definition colors : list string :=
  ["#2563EB"; "#10B981"; "#F59E0B"; "#EF4444";
   "#8B5CF6"; "#06B6D4"; "#84CC16"; "#F97316"]%string.

Definition getWorkoutTypeData (workoutTypes : list WorkoutType.t)
    (sessions : list WorkoutSession.t) : list TypeSlice :=
  imap
    (fun index '(name, duration) =>
       mkTypeSlice name duration
                   (default EmptyString (colors !! (index mod length colors)%nat)))
    (JSObject.entries (typeTotals workoutTypes sessions)).

(** The instant [weekStart] of [getWeeklyData], before it is cut down to
    its UTC date. *)
Definition weekStart (tz : Z) (session : WorkoutSession.t) : Z :=
  let date := WorkoutSession.startTime session in
  JSDate.daysBefore (JSDate.getDay tz date) date.

End Analytics.

(** ** components/WorkoutTimer.tsx *)

Module WorkoutTimer.

(** The component: the hook's state and the selected workout type
    (the empty string when none is selected). *)
Record State : Type := mkState {
  timer : Timer.TimerState;
  selectedWorkoutType : string
}.

Definition initial : State := mkState Timer.initial EmptyString.

(** What a handler does besides updating the state;
    [ToastCompleted e] is the toast that prints [formatTime(e)]. *)
Inductive Effect : Type :=
| ToastError (message : string)
| ToastSuccess (message : string)
| ToastCompleted (elapsedTime : Z)
| CreateWorkoutSession (session : WorkoutService.NewSession).

(** [!selectedWorkoutType] *)
Definition noneSelected (c : State) : bool :=
  match selectedWorkoutType c with EmptyString => true | _ => false end.

Definition handleStart (now : Z) (c : State) : State * list Effect :=
  if noneSelected c
  then (c, [ToastError "Please select a workout type first"])
  else (mkState (Timer.startTimer now (timer c)) (selectedWorkoutType c),
        [ToastSuccess "Workout started!"]).

Definition handlePause (now : Z) (c : State) : State * list Effect :=
  (mkState (Timer.pauseTimer now (timer c)) (selectedWorkoutType c),
   [ToastSuccess "Workout paused"]).

Definition handleResume (now : Z) (c : State) : State * list Effect :=
  (mkState (Timer.resumeTimer now (timer c)) (selectedWorkoutType c),
   [ToastSuccess "Workout resumed"]).

(** [handleFinish]; [saved] tells whether the store accepts the
    session, when it is asked at all. *)
Definition handleFinish (now : Z) (saved : bool) (c : State) : State * list Effect :=
  let elapsedTime := Timer.elapsedTime (timer c) in
  if noneSelected c
  then (c, [ToastError "No workout type selected"])
  else
    let durationMinutes := JSNumber.roundDiv elapsedTime 60 in
    if durationMinutes =? 0
    then (c, [ToastError "Workout duration too short"])
    else
      let request :=
        CreateWorkoutSession
          (WorkoutService.mkNewSession (selectedWorkoutType c)
                                       (now - elapsedTime * 1000)
                                       durationMinutes) in
      if saved
      then (mkState (Timer.resetTimer (Timer.stopTimer (timer c))) EmptyString,
            [request; ToastCompleted elapsedTime])
      else (c, [request; ToastError "Failed to save workout session"]).

Definition handleDiscard (c : State) : State * list Effect :=
  (mkState (Timer.resetTimer (Timer.stopTimer (timer c))) EmptyString,
   [ToastSuccess "Workout discarded"]).

(** The buttons that the component renders in a state. *)
Definition startShown (st : Timer.TimerState) : bool :=
  negb (Timer.isRunning st) && negb (Timer.isPaused st).
Definition pauseShown (st : Timer.TimerState) : bool := Timer.isRunning st.
Definition resumeShown (st : Timer.TimerState) : bool := Timer.isPaused st.
Definition finishShown (st : Timer.TimerState) : bool :=
  Timer.isRunning st || Timer.isPaused st.

Definition selectShown (st : Timer.TimerState) : bool :=
  negb (Timer.isRunning st) && negb (Timer.isPaused st).
Definition discardShown (st : Timer.TimerState) : bool := Timer.isPaused st.

(** [formatTime]; [seconds % 3600] and [seconds % 60] have the sign of
    [seconds]. *)
Definition formatTime (seconds : Z) : string :=
  let hours := seconds / 3600 in
  let minutes := Z.rem seconds 3600 / 60 in
  let secs := Z.rem seconds 60 in
  let two := fun n => JSString.padStart 2 "0" (JSString.toString n) in
  if 0 <? hours
  then two hours +:+ ":" +:+ two minutes +:+ ":" +:+ two secs
  else two minutes +:+ ":" +:+ two secs.

(** What the user, or the interval, can do to the component. *)
Inductive Action : Type :=
| SelectType (value : string)
| ClickStart
| ClickPause
| ClickResume
| ClickFinish (saved : bool)
| ClickDiscard
| IntervalTick.

(** Whether the control of an action is rendered, and enabled, in a
    state: the select and the Start button only while idle (the button
    disabled without a selection), Pause and the first Finish under
    [isRunning], Resume, the second Finish and Discard under
    [isPaused]. *)
Definition available (a : Action) (c : State) : bool :=
  match a with
  | SelectType _ => selectShown (timer c)
  | ClickStart => startShown (timer c) && negb (noneSelected c)
  | ClickPause => pauseShown (timer c)
  | ClickResume => resumeShown (timer c)
  | ClickFinish _ => finishShown (timer c)
  | ClickDiscard => discardShown (timer c)
  | IntervalTick => true
  end.

Definition act (now : Z) (a : Action) (c : State) : State :=
  if available a c
  then match a with
       | SelectType value => mkState (timer c) value
       | ClickStart => (handleStart now c).1
       | ClickPause => (handlePause now c).1
       | ClickResume => (handleResume now c).1
       | ClickFinish saved => (handleFinish now saved c).1
       | ClickDiscard => (handleDiscard c).1
       | IntervalTick => mkState (Timer.tick now (timer c)) (selectedWorkoutType c)
       end
  else c.

(** A session at the component: actions with their instants, oldest
    first. *)
Definition use (actions : list (Z * Action)) (c : State) : State :=
  fold_left (fun c' a => act a.1 a.2 c') actions c.

End WorkoutTimer.

(** ** components/ManualEntry.tsx *)

Module ManualEntry.

(** The four fields of the form. *)
Record Form : Type := mkForm {
  selectedWorkoutType : string;
  date : string;
  time : string;
  duration : string
}.

Inductive Effect : Type :=
| ToastError (message : string)
| ToastSuccess (message : string)
| CreateWorkoutSession (session : WorkoutService.NewSession).

Definition isEmpty (s : string) : bool :=
  match s with EmptyString => true | _ => false end.

Section HandleSubmit.
(** [new Date(s)] on a local date and time, [None] for an invalid
    date, on which [toISOString] throws. *)
Variable parseLocal : string -> option Z.

(** [handleSubmit]; [saved] as in [WorkoutTimer.handleFinish]. *)
Definition handleSubmit (saved : bool) (f : Form) : Form * list Effect :=
  if isEmpty (selectedWorkoutType f) || isEmpty (date f)
     || isEmpty (time f) || isEmpty (duration f)
  then (f, [ToastError "Please fill in all fields"])
  else
    match JSNumber.parseInt (duration f) with
    | None => (f, [ToastError "Please enter a valid duration in minutes"])
    | Some durationMinutes =>
        if durationMinutes <=? 0
        then (f, [ToastError "Please enter a valid duration in minutes"])
        else
          match parseLocal (date f ++ "T" ++ time f) with
          | None => (f, [ToastError "Failed to save workout session"])
          | Some startTime =>
              let request :=
                CreateWorkoutSession
                  (WorkoutService.mkNewSession (selectedWorkoutType f)
                                               startTime durationMinutes) in
              if saved
              then (mkForm EmptyString (date f) (time f) EmptyString,
                    [request;
                     ToastSuccess "Workout session saved successfully!"])
              else (f, [request; ToastError "Failed to save workout session"])
          end
    end.
End HandleSubmit.

(** The dialog that creates a workout type. *)
Module NewType.

Record State : Type := mkState {
  workoutTypes : list WorkoutType.t;
  selectedWorkoutType : string;
  newTypeName : string;
  showNewTypeDialog : bool
}.

Inductive Effect : Type :=
| ToastError (message : string)
| ToastSuccess (message : string)
| CreateWorkoutType (name : string).

(** [handleCreateNewType]; [created] is what the store answers when it
    is asked: the new type, or [None] when it fails. *)
Definition handleCreateNewType (created : option WorkoutType.t) (c : State)
    : State * list Effect :=
  if isEmpty (JSString.trim (newTypeName c))
  then (c, [ToastError "Please enter a workout type name"])
  else
    let request := CreateWorkoutType (JSString.trim (newTypeName c)) in
    match created with
    | Some newType =>
        (mkState (newType :: workoutTypes c) (WorkoutType.id newType)
                 EmptyString false,
         [request; ToastSuccess "New workout type created!"])
    | None => (c, [request; ToastError "Failed to create workout type"])
    end.

End NewType.

End ManualEntry.

(** ** The two ways in which the application creates a session *)

Module Creation.

Inductive Flow : Type :=
| TimerFinish (history : Timer.Trace) (selected : string) (now : Z) (saved : bool)
| ManualSubmit (parseLocal : string -> option Z) (form : ManualEntry.Form)
               (saved : bool).

(** The sessions handed to [createWorkoutSession] by a flow. *)
Definition requests (f : Flow) : list WorkoutService.NewSession :=
  match f with
  | TimerFinish history selected now saved =>
      let c := WorkoutTimer.mkState (Timer.run history Timer.initial) selected in
      omap (fun e => match e with
                     | WorkoutTimer.CreateWorkoutSession s => Some s
                     | _ => None
                     end)
           (WorkoutTimer.handleFinish now saved c).2
  | ManualSubmit parseLocal form saved =>
      omap (fun e => match e with
                     | ManualEntry.CreateWorkoutSession s => Some s
                     | _ => None
                     end)
           (ManualEntry.handleSubmit parseLocal saved form).2
  end.

(** The clock does not go back during a timed workout. *)
Definition clockSound (f : Flow) : Prop :=
  match f with
  | TimerFinish history _ _ _ => Timer.clockOrdered history
  | ManualSubmit _ _ _ => True
  end.

End Creation.

(** * Properties *)

(** ** The stopwatch *)

Section TimerFacts.
Import Timer.

Lemma phase_idle st :
  phase st = Idle <-> isRunning st = false /\ isPaused st = false.
Proof.
  unfold phase. destruct (isPaused st), (isRunning st); split;
    intros; try discriminate; intuition congruence.
Qed.

Lemma phase_running st :
  phase st = Running <-> isRunning st = true /\ isPaused st = false.
Proof.
  unfold phase. destruct (isPaused st), (isRunning st); split;
    intros; try discriminate; intuition congruence.
Qed.

Lemma phase_paused st : phase st = Paused <-> isPaused st = true.
Proof.
  unfold phase. destruct (isPaused st), (isRunning st); split;
    intros; try discriminate; intuition congruence.
Qed.

Lemma run_app tr1 tr2 st : run (tr1 ++ tr2) st = run tr2 (run tr1 st).
Proof. unfold run. apply fold_left_app. Qed.

Lemma run_cons t e tr st : run ((t, e) :: tr) st = run tr (step t e st).
Proof. reflexivity. Qed.

(** A stopped timer holds nothing: whatever the history, and however
    the clock behaved. *)
Lemma stopped_is_clear tr st :
  (isRunning st = false ->
   isPaused st = false /\ elapsedTime st = 0 /\ pausedTime st = 0) ->
  isRunning (run tr st) = false ->
  isPaused (run tr st) = false /\ elapsedTime (run tr st) = 0
  /\ pausedTime (run tr st) = 0.
Proof.
  revert st. induction tr as [|[t e] tr IH]; intros st Hst; [exact Hst|].
  rewrite run_cons. apply IH. clear IH.
  destruct st as [r p s el pa]; cbn in Hst.
  destruct e; cbn; try (intros; done);
    unfold pauseTimer, resumeTimer, tick, runningSegment; cbn;
    destruct r, p; cbn; try destruct s; cbn; intros Hr;
    try discriminate; try (by apply Hst);
    destruct (Hst eq_refl) as (? & ? & ?); done.
Qed.

Lemma wallClockElapsed_mono now now' start paused :
  now <= now' ->
  wallClockElapsed now start paused <= wallClockElapsed now' start paused.
Proof.
  intros H. unfold wallClockElapsed.
  assert ((now - start) / 1000 <= (now' - start) / 1000)
    by (apply Z.div_le_mono; lia).
  lia.
Qed.

Lemma consistent_later t t' st : t <= t' -> consistent t st -> consistent t' st.
Proof.
  unfold consistent. intros Ht. destruct (phase st); [done| |done].
  intros (start & Hs & Hle & Hp & He). exists start.
  pose proof (wallClockElapsed_mono t t' start (pausedTime st) Ht).
  repeat split; try done; lia.
Qed.

Lemma consistent_step t t' e st :
  t <= t' -> consistent t st -> consistent t' (step t' e st).
Proof.
  intros Ht Hc. apply (consistent_later t t' st Ht) in Hc. clear Ht t.
  assert (H0 : forall q, wallClockElapsed t' t' q = q)
    by (intros q; unfold wallClockElapsed; rewrite Z.sub_diag; reflexivity).
  destruct st as [r p s el pa]. revert Hc.
  destruct e; unfold consistent, phase; cbn;
    unfold pauseTimer, resumeTimer, tick, runningSegment; cbn;
    destruct r, p; cbn; try destruct s as [start|]; cbn;
    try done; try (intros _; exists t'; rewrite H0; repeat split; lia).
  - intros (s & [= <-] & ? & ? & ?). split; [done|]. lia.
  - intros [_ ?]. exists t'. rewrite H0. repeat split; lia.
  - intros [_ ?]. exists t'. rewrite H0. repeat split; lia.
  - intros [[=] _].
  - intros [[=] _].
  - intros (s & [= <-] & ? & ? & ?). exists start.
    assert (0 <= (t' - start) / 1000) by (apply Z.div_pos; lia).
    unfold wallClockElapsed in *. repeat split; try done; lia.
Qed.

Lemma consistent_run tr : forall t st,
  clockMonotone t tr -> consistent t st ->
  consistent (lastInstant t tr) (run tr st).
Proof.
  induction tr as [|[t' e] tr IH]; intros t st Hm Hc; [exact Hc|].
  destruct Hm as [Hle Hm]. rewrite run_cons.
  change (lastInstant t ((t', e) :: tr)) with (lastInstant t' tr).
  apply IH; [exact Hm|]. by apply consistent_step with t.
Qed.

Lemma consistent_initial t : consistent t initial.
Proof. by unfold consistent. Qed.

Lemma consistent_reading t st : consistent t st -> 0 <= elapsedTime st <= wallClockReading t st.
Proof.
  unfold consistent, wallClockReading. destruct (phase st).
  - intros (_ & _ & -> & _). lia.
  - intros (start & -> & _ & _ & H). exact H.
  - intros [_ H]. exact H.
Qed.

Lemma sameCore_refl st : sameCore st st.
Proof. by unfold sameCore. Qed.

Lemma sameCore_tick t st : sameCore (tick t st) st.
Proof.
  unfold sameCore, tick. by destruct (runningSegment st).
Qed.

Lemma sameCore_trans st1 st2 st3 :
  sameCore st1 st2 -> sameCore st2 st3 -> sameCore st1 st3.
Proof. unfold sameCore. intuition congruence. Qed.

Lemma sameCore_step t e st st' :
  sameCore st st' -> sameCore (step t e st) (step t e st').
Proof.
  destruct st as [r p s el pa], st' as [r' p' s' el' pa'].
  unfold sameCore; cbn. intros (-> & -> & -> & ->).
  destruct e; cbn; try done;
    unfold pauseTimer, resumeTimer, tick, runningSegment; cbn;
    destruct r', p'; cbn; try done; destruct s'; cbn; done.
Qed.

(** The ticks of a history change nothing but the displayed value. *)
Lemma run_calls tr : forall st st',
  sameCore st st' -> sameCore (run tr st) (run (calls tr) st').
Proof.
  induction tr as [|[t e] tr IH]; intros st st' Hs; [exact Hs|].
  rewrite run_cons. unfold calls; cbn [List.filter]. fold (calls tr).
  destruct (decide (e = Tick)) as [->|Hne].
  - cbn. apply IH. eapply sameCore_trans; [apply sameCore_tick|exact Hs].
  - rewrite bool_decide_eq_false_2 by exact Hne. cbn [negb].
    rewrite run_cons. apply IH. by apply sameCore_step.
Qed.

(** The shape of the states that the callbacks produce. *)
Lemma shape_step t e st :
  match phase st with
  | Idle => st = initial
  | _ => isRunning st = true /\ is_Some (startTime st)
  end ->
  match phase (step t e st) with
  | Idle => step t e st = initial
  | _ => isRunning (step t e st) = true /\ is_Some (startTime (step t e st))
  end.
Proof.
  destruct st as [r p s el pa].
  destruct e; unfold phase; cbn;
    unfold pauseTimer, resumeTimer, tick, runningSegment; cbn;
    destruct p, r; cbn; try destruct s; cbn;
    try done; try (intros [? [? [=]]]); try (intros [[=] _]);
    try (intros [=]); try (intros [_ [? [=]]]); by eauto.
Qed.

Lemma shape_run tr : forall st,
  match phase st with
  | Idle => st = initial
  | _ => isRunning st = true /\ is_Some (startTime st)
  end ->
  match phase (run tr st) with
  | Idle => run tr st = initial
  | _ => isRunning (run tr st) = true /\ is_Some (startTime (run tr st))
  end.
Proof.
  induction tr as [|[t e] tr IH]; intros st Hst; [exact Hst|].
  rewrite run_cons. apply IH. by apply shape_step.
Qed.

Lemma wallClockReading_sameCore now st st' :
  sameCore st st' -> wallClockReading now st = wallClockReading now st'.
Proof.
  unfold sameCore, wallClockReading, phase.
  intros (-> & -> & -> & ->). reflexivity.
Qed.

Lemma phase_sameCore st st' : sameCore st st' -> phase st = phase st'.
Proof. unfold sameCore, phase. intros (-> & -> & _). reflexivity. Qed.

(** Neither [pauseTimer] nor [resumeTimer] writes the displayed
    value. *)
Lemma elapsedTime_calls tr : forall st,
  Forall (fun ev : Z * Event => ev.2 = Pause \/ ev.2 = Resume) tr ->
  elapsedTime (run tr st) = elapsedTime st.
Proof.
  induction tr as [|[t e] tr IH]; intros st Hall; [reflexivity|].
  apply Forall_cons in Hall as [He Hall]. rewrite run_cons, (IH _ Hall).
  cbn in He. destruct He as [-> | ->]; cbn.
  - unfold pauseTimer. by destruct (runningSegment st).
  - unfold resumeTimer. by destruct (isPaused st).
Qed.

(** Pauses and resumes in turn: each pause adds the whole seconds of
    the running interval that it ends to the baseline, and the breaks
    add nothing. *)
Lemma run_toggles ts : forall running from st stop,
  isRunning st = true -> isPaused st = negb running ->
  (running = true -> startTime st = Some from) ->
  phase (run (toggles running ts) st)
  = (if xorb running (Nat.even (length ts)) then Paused else Running)
  /\ wallClockReading stop (run (toggles running ts) st)
     = pausedTime st
       + Zsum (map (fun d => d / 1000) (runningIntervals running from ts stop)).
Proof.
  induction ts as [|t ts IH]; intros running from st stop Hr Hp Hs.
  - destruct st as [r p s el pa]; cbn in Hr, Hp, Hs; subst r p.
    unfold wallClockReading, phase. destruct running; cbn -[Z.div].
    + rewrite (Hs eq_refl). unfold wallClockElapsed. split; [done|lia].
    + split; [done|lia].
  - cbn [toggles runningIntervals]. rewrite run_cons.
    replace (Nat.even (length (t :: ts))) with (negb (Nat.even (length ts)))
      by (cbn [length]; rewrite Nat.even_succ, <- Nat.negb_even; done).
    destruct st as [r p s el pa]; cbn in Hr, Hp, Hs; subst r p.
    destruct running; cbn [negb] in *.
    + rewrite (Hs eq_refl).
      destruct (IH false t (mkTimer true true (Some from) el
                              (wallClockElapsed t from pa)) stop)
        as [H1 H2]; [done|done|done|].
      change (step t Pause (mkTimer true false (Some from) el pa))
        with (mkTimer true true (Some from) el (wallClockElapsed t from pa)).
      rewrite H1, H2. cbn [pausedTime Zsum map foldr]. unfold wallClockElapsed.
      split; [by destruct (Nat.even (length ts))|].
      fold (Zsum (map (fun d => d / 1000) (runningIntervals false t ts stop))).
      lia.
    + destruct (IH true t (mkTimer true false (Some t) el pa) stop)
        as [H1 H2]; [done|done|done|].
      change (step t Resume (mkTimer true true s el pa))
        with (mkTimer true false (Some t) el pa).
      rewrite H1, H2. cbn [pausedTime].
      split; [by destruct (Nat.even (length ts))|reflexivity].
Qed.

(** What the three callbacks that keep the workout going do to the
    displayed value, in a state that a history leads to. *)
Lemma elapsedTime_after tr now :
  elapsedTime (tick now (run tr initial))
  = match phase (run tr initial) with
    | Running => wallClockReading now (run tr initial)
    | Idle => 0
    | Paused => elapsedTime (run tr initial)
    end
  /\ elapsedTime (pauseTimer now (run tr initial)) = elapsedTime (run tr initial)
  /\ elapsedTime (resumeTimer now (run tr initial)) = elapsedTime (run tr initial)
  /\ (phase (run tr initial) = Idle -> elapsedTime (run tr initial) = 0).
Proof.
  pose proof (shape_run tr initial eq_refl) as Hshape.
  revert Hshape. generalize (run tr initial) as st. intros [r p s el pa].
  unfold wallClockReading, phase, tick, pauseTimer, resumeTimer,
    runningSegment; cbn.
  destruct p, r; cbn; intros Hshape.
  - destruct s; done.
  - done.
  - destruct Hshape as [_ [start ->]]. done.
  - injection Hshape as -> -> ->. done.
Qed.

(** With a clock that does not go back, the displayed value is never
    negative and never ahead of the wall-clock reading. *)
Lemma elapsedTime_bounds tr t0 now :
  clockMonotone t0 tr -> lastInstant t0 tr <= now ->
  0 <= elapsedTime (run tr initial) <= wallClockReading now (run tr initial).
Proof.
  intros Hm Hnow.
  pose proof (consistent_run tr t0 initial Hm (consistent_initial t0)) as Hc.
  apply (consistent_later _ now _ Hnow) in Hc. by apply consistent_reading.
Qed.

(** Running intervals are differences of instants: moving all of them
    by the same delay changes nothing, and while the timer is paused
    the start of the last segment does not matter. *)
Lemma runningIntervals_shift delay ts : forall running from stop,
  runningIntervals running (from + delay) (map (Z.add delay) ts) (stop + delay)
  = runningIntervals running from ts stop.
Proof.
  induction ts as [|t ts IH]; intros running from stop; cbn [map runningIntervals].
  - destruct running; [|reflexivity]. f_equal. lia.
  - rewrite (Z.add_comm delay t).
    destruct running; [|apply IH]. rewrite IH. f_equal. lia.
Qed.

Lemma runningIntervals_paused from from' ts stop :
  runningIntervals false from ts stop = runningIntervals false from' ts stop.
Proof. by destruct ts. Qed.

(** A longer break: every call after a pause, and the reading, later
    by [delay]. *)
Lemma runningIntervals_longer_break delay ts2 stop ts1 : forall running from,
  running = Nat.odd (length ts1) ->
  runningIntervals running from (ts1 ++ map (Z.add delay) ts2) (stop + delay)
  = runningIntervals running from (ts1 ++ ts2) stop.
Proof.
  induction ts1 as [|t ts1 IH]; intros running from Hpaused.
  - cbn in Hpaused. subst running. cbn [app].
    rewrite (runningIntervals_paused from (from + delay)).
    apply runningIntervals_shift.
  - cbn [length] in Hpaused. rewrite Nat.odd_succ, <- Nat.negb_odd in Hpaused.
    cbn [app runningIntervals]. destruct running.
    + f_equal. apply IH. by destruct (Nat.odd (length ts1)).
    + apply IH. by destruct (Nat.odd (length ts1)).
Qed.

Lemma whole_and_lost (ds : list Z) :
  1000 * Zsum (map (fun d => d / 1000) ds)
  = Zsum ds - Zsum (map (fun d => d mod 1000) ds).
Proof.
  induction ds as [|d ds IH]; [reflexivity|].
  unfold Zsum in *. cbn [map foldr].
  pose proof (Z.div_mod d 1000 ltac:(lia)). lia.
Qed.

End TimerFacts.

Section TimerClaims.
Import Timer.

(** C1 (as stated, refuted).  A timer that was paused after ten
    seconds and is started again at t = 20 s is not left as it was:
    [startTimer] has no guard, and both the displayed time and the
    accumulated baseline drop from 10 to 0. *)
Lemma start_while_paused_resets :
  phase (run [(0, Start); (10000, Tick); (10000, Pause)] initial) = Paused
  /\ elapsedTime (run [(0, Start); (10000, Tick); (10000, Pause)] initial) = 10
  /\ pausedTime (run [(0, Start); (10000, Tick); (10000, Pause)] initial) = 10
  /\ startTimer 20000 (run [(0, Start); (10000, Tick); (10000, Pause)] initial)
     <> run [(0, Start); (10000, Tick); (10000, Pause)] initial
  /\ elapsedTime
       (startTimer 20000 (run [(0, Start); (10000, Tick); (10000, Pause)] initial)) = 0
  /\ pausedTime
       (startTimer 20000 (run [(0, Start); (10000, Tick); (10000, Pause)] initial)) = 0.
Proof. repeat split; try reflexivity. discriminate. Qed.

(** C1 (amended).  [startTimer] restarts the stopwatch from whatever
    state [st'] it is called in: the segment starts now, the timer
    runs, and displayed time and baseline are 0.  The guard is in the
    view: the Start button is rendered only when idle, and after any
    history an idle timer has nothing accumulated to lose. *)
Theorem start_restarts_guarded_by_view tr now st' :
  WorkoutTimer.startShown (run tr initial) = true ->
  phase (run tr initial) = Idle
  /\ elapsedTime (run tr initial) = 0
  /\ pausedTime (run tr initial) = 0
  /\ startTimer now st' = mkTimer true false (Some now) 0 0
  /\ phase (startTimer now st') = Running.
Proof.
  unfold WorkoutTimer.startShown. intros H.
  apply andb_true_iff in H as [Hr Hp].
  apply negb_true_iff in Hr, Hp.
  destruct (stopped_is_clear tr initial) as (_ & He & Hb); [done|exact Hr|].
  repeat split; try done. by apply phase_idle.
Qed.

Lemma start_restarts_guarded_by_view_witness :
  WorkoutTimer.startShown (run [(0, Start); (5000, Tick); (6000, Stop)] initial) = true
  /\ phase (run [(0, Start); (5000, Tick); (6000, Stop)] initial) = Idle
  /\ elapsedTime (run [(0, Start); (5000, Tick); (6000, Stop)] initial) = 0
  /\ pausedTime (run [(0, Start); (5000, Tick); (6000, Stop)] initial) = 0
  /\ startTimer 7000 (mkTimer true true (Some 0) 10 10)
     = mkTimer true false (Some 7000) 0 0
  /\ phase (startTimer 7000 (mkTimer true true (Some 0) 10 10)) = Running.
Proof.
  split; [reflexivity|].
  apply (start_restarts_guarded_by_view
           [(0, Start); (5000, Tick); (6000, Stop)] 7000
           (mkTimer true true (Some 0) 10 10)).
  reflexivity.
Defined.

(** C6.  [pause] outside the running state and [resume] outside the
    paused state leave every cell of the timer as it was. *)
Theorem wrong_state_pause_resume_noop now e st :
  (e = Pause /\ phase st <> Running) \/ (e = Resume /\ phase st <> Paused) ->
  step now e st = st.
Proof.
  intros [[-> H]|[-> H]]; cbn.
  - unfold pauseTimer, runningSegment.
    destruct (isRunning st) eqn:Hr, (isPaused st) eqn:Hp; cbn; try done.
    destruct H. by apply phase_running.
  - unfold resumeTimer. destruct (isPaused st) eqn:Hp; [|done].
    destruct H. by apply phase_paused.
Qed.

Lemma wrong_state_pause_resume_noop_witness :
  ((Pause = Pause /\ phase (run [(0, Start); (3000, Tick); (3500, Pause)] initial) <> Running)
   \/ (Pause = Resume
       /\ phase (run [(0, Start); (3000, Tick); (3500, Pause)] initial) <> Paused))
  /\ step 9000 Pause (run [(0, Start); (3000, Tick); (3500, Pause)] initial)
     = run [(0, Start); (3000, Tick); (3500, Pause)] initial.
Proof.
  assert (H : (Pause = Pause
               /\ phase (run [(0, Start); (3000, Tick); (3500, Pause)] initial) <> Running)
              \/ (Pause = Resume
                  /\ phase (run [(0, Start); (3000, Tick); (3500, Pause)] initial) <> Paused)).
  { left. split; [reflexivity|]. cbv. discriminate. }
  split; [exact H|].
  exact (wrong_state_pause_resume_noop 9000 Pause _ H).
Defined.

End TimerClaims.

Section TimerReadings.
Import Timer.

(** C4 (as stated, refuted).  The value that the hook returns is the
    cell [elapsedTime], which only the interval callback refreshes.
    With a tick 1004 ms after the start, the cell still shows 1 at
    2003 ms, while the clock gives 2 whole seconds; and when the timer
    is paused at that instant the baseline becomes 2 and the returned
    value stays 1. *)
Lemma reading_lags_the_clock :
  phase (run [(0, Start); (1004, Tick)] initial) = Running
  /\ elapsedTime (run [(0, Start); (1004, Tick)] initial) = 1
  /\ wallClockReading 2003 (run [(0, Start); (1004, Tick)] initial) = 2
  /\ phase (run [(0, Start); (1004, Tick); (2003, Pause)] initial) = Paused
  /\ elapsedTime (run [(0, Start); (1004, Tick); (2003, Pause)] initial) = 1
  /\ pausedTime (run [(0, Start); (1004, Tick); (2003, Pause)] initial) = 2
  /\ elapsedTime (run [(0, Start); (1004, Tick); (2003, Pause)] initial)
     <> wallClockReading 2003 (run [(0, Start); (1004, Tick); (2003, Pause)] initial).
Proof. repeat split; try reflexivity. discriminate. Qed.

(** The bounds of C4 need the clock: when it is set back during a
    segment, the tick stores a negative value. *)
Lemma reading_below_zero_when_clock_set_back :
  elapsedTime (run [(100000, Start); (99500, Tick)] initial) = -1.
Proof. reflexivity. Qed.

(** C4 (amended).  After any history, whatever the clock did: a tick
    while running sets the returned [elapsedTime] to the wall-clock
    reading, computed from the clock and not by counting; a tick in any
    other state, a pause and a resume leave it as the last tick set it;
    it is 0 while idle.  And when the clock readings of the history did
    not go back and [now] is not before the last of them, the returned
    value is never negative and never ahead of the wall-clock reading
    at [now]. *)
Theorem elapsedTime_follows_ticks tr now :
  elapsedTime (tick now (run tr initial))
  = match phase (run tr initial) with
    | Running => wallClockReading now (run tr initial)
    | Idle => 0
    | Paused => elapsedTime (run tr initial)
    end
  /\ elapsedTime (pauseTimer now (run tr initial)) = elapsedTime (run tr initial)
  /\ elapsedTime (resumeTimer now (run tr initial)) = elapsedTime (run tr initial)
  /\ (phase (run tr initial) = Idle -> elapsedTime (run tr initial) = 0)
  /\ (forall t0, clockMonotone t0 tr -> lastInstant t0 tr <= now ->
      0 <= elapsedTime (run tr initial) <= wallClockReading now (run tr initial)).
Proof.
  destruct (elapsedTime_after tr now) as (Ht & Hp & Hr & Hi).
  repeat split; try done; by eapply elapsedTime_bounds.
Qed.

Lemma elapsedTime_follows_ticks_witness :
  elapsedTime (tick 2003 (run [(0, Start); (1004, Tick)] initial))
  = wallClockReading 2003 (run [(0, Start); (1004, Tick)] initial)
  /\ elapsedTime (pauseTimer 2003 (run [(0, Start); (1004, Tick)] initial))
     = elapsedTime (run [(0, Start); (1004, Tick)] initial)
  /\ elapsedTime (resumeTimer 2003 (run [(0, Start); (1004, Tick)] initial))
     = elapsedTime (run [(0, Start); (1004, Tick)] initial)
  /\ elapsedTime (run [(0, Start); (1004, Tick); (3000, Stop)] initial) = 0
  /\ clockMonotone 0 [(0, Start); (1004, Tick)]
  /\ lastInstant 0 [(0, Start); (1004, Tick)] <= 2003
  /\ 0 <= elapsedTime (run [(0, Start); (1004, Tick)] initial)
       <= wallClockReading 2003 (run [(0, Start); (1004, Tick)] initial).
Proof.
  assert (H1 : clockMonotone 0 [(0, Start); (1004, Tick)]) by (cbn; lia).
  assert (H2 : lastInstant 0 [(0, Start); (1004, Tick)] <= 2003) by (cbn; lia).
  destruct (elapsedTime_follows_ticks [(0, Start); (1004, Tick)] 2003)
    as (Ht & Hp & Hr & _ & Hb).
  destruct (elapsedTime_follows_ticks [(0, Start); (1004, Tick); (3000, Stop)] 2003)
    as (_ & _ & _ & Hi & _).
  split; [exact Ht|]. split; [exact Hp|]. split; [exact Hr|].
  split; [exact (Hi eq_refl)|]. split; [exact H1|]. split; [exact H2|].
  exact (Hb 0 H1 H2).
Defined.

(** C5 (as stated, refuted).  The scenario of the specification: start
    at 0 s, pause at 10 s, resume at 20 s, pause at 25 s, the interval
    firing every second while the timer runs.  The timer ran for
    10 + 5 seconds and the baseline stored by the second pause is 15,
    but the value that the hook returns is 14: the last tick fired at
    24.004 s, and the pause does not write [elapsedTime]. *)
Lemma scenario_returns_fourteen :
  calls scenario = workout 0 [10000; 20000; 25000]
  /\ runningMillis 0 [10000; 20000; 25000] 25000 = 15000
  /\ phase (run scenario initial) = Paused
  /\ pausedTime (run scenario initial) = 15
  /\ elapsedTime (run scenario initial) = 14
  /\ 1000 * elapsedTime (run scenario initial)
     <> runningMillis 0 [10000; 20000; 25000] 25000.
Proof. vm_compute. repeat split; discriminate. Qed.

(** C5 (amended).  Take any workout, a start at [t0] followed by pauses
    and resumes in turn at the instants [ts], any way [tr] in which the
    interval fires in between, and any instant [stop]; the timer is
    then running when [ts] has an even number of calls and paused
    otherwise.  The reading that the state determines at [stop] (the
    baseline, plus the current segment while running) is the sum of the
    whole seconds of the running intervals, the last of them reaching
    to [stop] while running: the breaks do not enter it, and it is the
    time spent running less the fractions of a second of each interval.
    A break that lasts longer by any [delay], all later calls and the
    reading moved by as much, leaves the sum as it is.
    The value that the hook returns is that reading as of the last
    tick: a tick at [stop] while running sets it to the sum, the pauses
    and resumes that follow do not change it, and as long as the clock
    did not go back it lies between 0 and the sum. *)
Theorem reading_sums_running_seconds t0 ts tr stop :
  calls tr = workout t0 ts ->
  phase (run tr initial) = (if Nat.even (length ts) then Running else Paused)
  /\ wallClockReading stop (run tr initial) = runningWholeSeconds t0 ts stop
  /\ 1000 * runningWholeSeconds t0 ts stop
     = runningMillis t0 ts stop - lostMillis t0 ts stop
  /\ (forall ts1 ts2 delay, ts = ts1 ++ ts2 -> Nat.odd (length ts1) = true ->
      runningWholeSeconds t0 (ts1 ++ map (Z.add delay) ts2) (stop + delay)
      = runningWholeSeconds t0 ts stop)
  /\ (forall tr', Forall (fun ev : Z * Event => ev.2 = Pause \/ ev.2 = Resume) tr' ->
      elapsedTime (run (tr ++ (stop, Tick) :: tr') initial)
      = if Nat.even (length ts) then runningWholeSeconds t0 ts stop
        else elapsedTime (run tr initial))
  /\ (forall t, clockMonotone t tr -> lastInstant t tr <= stop ->
      0 <= elapsedTime (run tr initial) <= runningWholeSeconds t0 ts stop).
Proof.
  intros Hcalls.
  pose proof (run_calls tr initial initial (sameCore_refl _)) as Hcore.
  rewrite Hcalls in Hcore. unfold workout in Hcore. rewrite run_cons in Hcore.
  destruct (run_toggles ts true t0 (step t0 Start initial) stop)
    as [Hph Hrd]; [reflexivity|reflexivity|reflexivity|].
  assert (Hphase : phase (run tr initial)
                   = if Nat.even (length ts) then Running else Paused).
  { rewrite (phase_sameCore _ _ Hcore), Hph.
    by destruct (Nat.even (length ts)). }
  assert (Hreading : wallClockReading stop (run tr initial)
                     = runningWholeSeconds t0 ts stop).
  { rewrite (wallClockReading_sameCore _ _ _ Hcore), Hrd.
    unfold runningWholeSeconds. cbn [step startTimer pausedTime]. lia. }
  split; [exact Hphase|]. split; [exact Hreading|].
  split; [apply whole_and_lost|].
  split; [|split].
  - intros ts1 ts2 delay -> Hodd. unfold runningWholeSeconds.
    by rewrite runningIntervals_longer_break.
  - intros tr' Hall.
    rewrite run_app, run_cons, (elapsedTime_calls _ _ Hall).
    destruct (elapsedTime_after tr stop) as (Htick & _).
    cbn [step]. rewrite Htick, Hphase.
    destruct (Nat.even (length ts)); [exact Hreading|reflexivity].
  - intros t Hm Hstop. rewrite <- Hreading. by eapply elapsedTime_bounds.
Qed.

(** The sequence of the specification, start, pause, resume, pause,
    resume, read at 33 s while running: 10 + 5 + 3 seconds, and as
    many when the first break lasts 15 s instead of 10 s. *)
Lemma reading_sums_running_seconds_witness :
  calls (scenario ++ (30000, Resume) :: ticksAt [31004; 32004])
  = workout 0 [10000; 20000; 25000; 30000]
  /\ phase (run (scenario ++ (30000, Resume) :: ticksAt [31004; 32004]) initial)
     = Running
  /\ wallClockReading 33000
       (run (scenario ++ (30000, Resume) :: ticksAt [31004; 32004]) initial)
     = 18
  /\ 1000 * 18 = 18000 - 0
  /\ runningWholeSeconds 0 [10000; 25000; 30000; 35000] 38000 = 18
  /\ elapsedTime
       (run ((scenario ++ (30000, Resume) :: ticksAt [31004; 32004])
             ++ [(33000, Tick)]) initial)
     = 18
  /\ 0 <= elapsedTime
            (run (scenario ++ (30000, Resume) :: ticksAt [31004; 32004]) initial)
       <= 18.
Proof.
  assert (Hcalls : calls (scenario ++ (30000, Resume) :: ticksAt [31004; 32004])
                   = workout 0 [10000; 20000; 25000; 30000]) by reflexivity.
  assert (Hm : clockMonotone 0
                 (scenario ++ (30000, Resume) :: ticksAt [31004; 32004]))
    by (cbn; lia).
  assert (Hl : lastInstant 0
                 (scenario ++ (30000, Resume) :: ticksAt [31004; 32004])
               <= 33000)
    by (cbn; lia).
  destruct (reading_sums_running_seconds 0 [10000; 20000; 25000; 30000]
              (scenario ++ (30000, Resume) :: ticksAt [31004; 32004])
              33000 Hcalls)
    as (H1 & H2 & H3 & H4 & H5 & H6).
  split; [exact Hcalls|]. split; [exact H1|]. split; [exact H2|].
  split; [exact H3|].
  split; [exact (H4 [10000] [20000; 25000; 30000] 5000 eq_refl eq_refl)|].
  split; [exact (H5 [] (Forall_nil_2 _))|].
  exact (H6 0 Hm Hl).
Defined.

End TimerReadings.

(** ** Sums, minima and dictionaries *)

Section ListFacts.

Lemma Zsum_cons x xs : Zsum (x :: xs) = x + Zsum xs.
Proof. reflexivity. Qed.

Lemma Zsum_app xs ys : Zsum (xs ++ ys) = Zsum xs + Zsum ys.
Proof. unfold Zsum. induction xs as [|x xs IH]; cbn; lia. Qed.

Lemma Zsum_perm xs ys : xs ≡ₚ ys -> Zsum xs = Zsum ys.
Proof.
  unfold Zsum. induction 1; cbn; lia.
Qed.

(** A [reduce] that adds up is the sum, on top of its seed. *)
Lemma fold_left_add {A} (f : A -> Z) (xs : list A) (seed : Z) :
  fold_left (fun acc x => acc + f x) xs seed = seed + Zsum (map f xs).
Proof.
  revert seed. induction xs as [|x xs IH]; intros seed; cbn; [lia|].
  rewrite IH. unfold Zsum. lia.
Qed.

Lemma mathMin_spec x xs :
  WorkoutService.mathMin x xs ∈ x :: xs
  /\ forall y, y ∈ x :: xs -> WorkoutService.mathMin x xs <= y.
Proof.
  unfold WorkoutService.mathMin. revert x.
  induction xs as [|z xs IH]; intros x; cbn.
  - split; [apply list_elem_of_here|]. intros y Hy.
    apply list_elem_of_singleton in Hy. lia.
  - destruct (IH (Z.min x z)) as [Hin Hle]. split.
    + apply elem_of_cons in Hin as [Heq|Hin].
      * rewrite Heq. destruct (Z.min_spec x z) as [[_ ->]|[_ ->]].
        -- apply list_elem_of_here.
        -- apply list_elem_of_further, list_elem_of_here.
      * by do 2 apply list_elem_of_further.
    + intros y Hy.
      pose proof (Hle (Z.min x z) (list_elem_of_here _ _)) as H0.
      apply elem_of_cons in Hy as [->|Hy]; [lia|].
      apply elem_of_cons in Hy as [->|Hy]; [lia|].
      apply Hle. by apply list_elem_of_further.
Qed.

Lemma mathMax_spec x xs :
  WorkoutService.mathMax x xs ∈ x :: xs
  /\ forall y, y ∈ x :: xs -> y <= WorkoutService.mathMax x xs.
Proof.
  unfold WorkoutService.mathMax. revert x.
  induction xs as [|z xs IH]; intros x; cbn.
  - split; [apply list_elem_of_here|]. intros y Hy.
    apply list_elem_of_singleton in Hy. lia.
  - destruct (IH (Z.max x z)) as [Hin Hle]. split.
    + apply elem_of_cons in Hin as [Heq|Hin].
      * rewrite Heq. destruct (Z.max_spec x z) as [[_ ->]|[_ ->]].
        -- apply list_elem_of_further, list_elem_of_here.
        -- apply list_elem_of_here.
      * by do 2 apply list_elem_of_further.
    + intros y Hy.
      pose proof (Hle (Z.max x z) (list_elem_of_here _ _)) as H0.
      apply elem_of_cons in Hy as [->|Hy]; [lia|].
      apply elem_of_cons in Hy as [->|Hy]; [lia|].
      apply Hle. by apply list_elem_of_further.
Qed.

(** The least and the greatest element of a list are determined by its
    elements. *)
Lemma mathMin_unique x xs lo :
  lo ∈ x :: xs -> (forall y, y ∈ x :: xs -> lo <= y) ->
  WorkoutService.mathMin x xs = lo.
Proof.
  intros Hin Hle. destruct (mathMin_spec x xs) as [Hin' Hle'].
  pose proof (Hle _ Hin'). pose proof (Hle' _ Hin). lia.
Qed.

Lemma mathMax_unique x xs hi :
  hi ∈ x :: xs -> (forall y, y ∈ x :: xs -> y <= hi) ->
  WorkoutService.mathMax x xs = hi.
Proof.
  intros Hin Hle. destruct (mathMax_spec x xs) as [Hin' Hle'].
  pose proof (Hle _ Hin'). pose proof (Hle' _ Hin). lia.
Qed.

End ListFacts.

(** ** Statistics *)

Section StatsFacts.
Import WorkoutService.

Lemma stats_totalTime tz sessions :
  WorkoutStats.totalTime (getWorkoutStats tz sessions) = totalMinutes sessions.
Proof.
  destruct sessions as [|r rows]; [reflexivity|].
  unfold getWorkoutStats, totalMinutes. cbn [map WorkoutStats.totalTime].
  rewrite fold_left_add. apply Z.add_0_l.
Qed.

Lemma uniqueDays_perm tz l l' : l ≡ₚ l' -> uniqueDays tz l = uniqueDays tz l'.
Proof.
  intros H. unfold uniqueDays. apply list_to_set_perm_L.
  by apply Permutation_map.
Qed.

Lemma mathMin_perm x xs y ys :
  x :: xs ≡ₚ y :: ys -> mathMin x xs = mathMin y ys.
Proof.
  intros H. destruct (mathMin_spec y ys) as [Hin Hle].
  apply mathMin_unique.
  - by rewrite H.
  - intros z Hz. apply Hle. by rewrite <- H.
Qed.

Lemma mathMax_perm x xs y ys :
  x :: xs ≡ₚ y :: ys -> mathMax x xs = mathMax y ys.
Proof.
  intros H. destruct (mathMax_spec y ys) as [Hin Hle].
  apply mathMax_unique.
  - by rewrite H.
  - intros z Hz. apply Hle. by rewrite <- H.
Qed.

Lemma ceilDiv_spec n d :
  0 < d -> (JSNumber.ceilDiv n d - 1) * d < n <= JSNumber.ceilDiv n d * d.
Proof.
  intros Hd. unfold JSNumber.ceilDiv.
  pose proof (Z.div_mod (- n) d ltac:(lia)).
  pose proof (Z.mod_pos_bound (- n) d Hd). nia.
Qed.

(** C7.  The statistics of a list of rows and of any rearrangement of
    it are the same record: all six fields agree. *)
Theorem getWorkoutStats_perm tz sessions sessions' :
  sessions ≡ₚ sessions' ->
  getWorkoutStats tz sessions = getWorkoutStats tz sessions'.
Proof.
  intros H.
  destruct sessions as [|r rows], sessions' as [|r' rows'].
  - reflexivity.
  - by apply Permutation_nil_cons in H.
  - symmetry in H. by apply Permutation_nil_cons in H.
  - assert (Htotal :
      fold_left (fun sum session => sum + duration_minutes session) (r :: rows) 0
      = fold_left (fun sum session => sum + duration_minutes session) (r' :: rows') 0).
    { rewrite !fold_left_add. f_equal. apply Zsum_perm. by apply Permutation_map. }
    assert (Hlen : length (r :: rows) = length (r' :: rows'))
      by (by apply Permutation_length).
    pose proof (uniqueDays_perm tz _ _ H) as Hdays.
    assert (Hdates : start_time r :: map start_time rows
                     ≡ₚ start_time r' :: map start_time rows')
      by (by apply (Permutation_map start_time) in H).
    pose proof (mathMin_perm _ _ _ _ Hdates) as Hmin.
    pose proof (mathMax_perm _ _ _ _ Hdates) as Hmax.
    unfold getWorkoutStats. cbn [map].
    rewrite Htotal, Hlen, Hdays, Hmin, Hmax. reflexivity.
Qed.

Lemma getWorkoutStats_perm_witness :
  [mkStatsRow 30 0; mkStatsRow 45 90000000; mkStatsRow 20 3600000]
  ≡ₚ [mkStatsRow 20 3600000; mkStatsRow 30 0; mkStatsRow 45 90000000]
  /\ getWorkoutStats 0 [mkStatsRow 30 0; mkStatsRow 45 90000000; mkStatsRow 20 3600000]
     = getWorkoutStats 0 [mkStatsRow 20 3600000; mkStatsRow 30 0; mkStatsRow 45 90000000].
Proof.
  assert (H : [mkStatsRow 30 0; mkStatsRow 45 90000000; mkStatsRow 20 3600000]
              ≡ₚ [mkStatsRow 20 3600000; mkStatsRow 30 0; mkStatsRow 45 90000000]).
  { exact (Permutation_app_comm [mkStatsRow 30 0; mkStatsRow 45 90000000]
                                [mkStatsRow 20 3600000]). }
  split; [exact H|].
  exact (getWorkoutStats_perm 0 _ _ H).
Defined.

(** C2 (as stated, refuted).  Two sessions of 30 minutes, 31 days
    apart: the code divides the 60 minutes by 31/7 weeks and by 31/30
    months, where the statement has 5 weeks and 2 months. *)
Lemma averages_do_not_round_periods_up :
  WorkoutStats.totalTime
    (getWorkoutStats 0 [mkStatsRow 30 0; mkStatsRow 30 (31 * JSDate.msPerDay)]) = 60
  /\ dateRangeDays 0 (31 * JSDate.msPerDay) = 31
  /\ (WorkoutStats.weeklyAverage
        (getWorkoutStats 0 [mkStatsRow 30 0; mkStatsRow 30 (31 * JSDate.msPerDay)])
      == 420 # 31)%Q
  /\ (specWeeklyAverage 60 31 == 12)%Q
  /\ ~ (WorkoutStats.weeklyAverage
          (getWorkoutStats 0 [mkStatsRow 30 0; mkStatsRow 30 (31 * JSDate.msPerDay)])
        == specWeeklyAverage 60 31)%Q
  /\ (WorkoutStats.monthlyAverage
        (getWorkoutStats 0 [mkStatsRow 30 0; mkStatsRow 30 (31 * JSDate.msPerDay)])
      == 1800 # 31)%Q
  /\ (specMonthlyAverage 60 31 == 30)%Q
  /\ ~ (WorkoutStats.monthlyAverage
          (getWorkoutStats 0 [mkStatsRow 30 0; mkStatsRow 30 (31 * JSDate.msPerDay)])
        == specMonthlyAverage 60 31)%Q.
Proof.
  repeat split; try (vm_compute; reflexivity); vm_compute; discriminate.
Qed.

(** C2 (amended).  For every non-empty set of rows, whose earliest and
    latest start are [lo] and [hi]: the weekly and the monthly average
    are the total time over the number of weeks, respectively months,
    spanned, taken as a fraction (days / 7, days / 30) and not rounded
    up, at least 1; only the number of days is rounded up. *)
Theorem averages_divide_by_fractional_periods tz sessions lo hi :
  lo ∈ map start_time sessions -> hi ∈ map start_time sessions ->
  (forall t, t ∈ map start_time sessions -> lo <= t <= hi) ->
  WorkoutStats.weeklyAverage (getWorkoutStats tz sessions)
  = (inject_Z (totalMinutes sessions)
     / Qmax 1 (inject_Z (dateRangeDays lo hi) / 7))%Q
  /\ WorkoutStats.monthlyAverage (getWorkoutStats tz sessions)
     = (inject_Z (totalMinutes sessions)
        / Qmax 1 (inject_Z (dateRangeDays lo hi) / 30))%Q
  /\ (dateRangeDays lo hi - 1) * JSDate.msPerDay < hi - lo
     <= dateRangeDays lo hi * JSDate.msPerDay.
Proof.
  intros Hlo Hhi Hb.
  split; [|split; [|by apply ceilDiv_spec]];
    (destruct sessions as [|r rows]; [by apply elem_of_nil in Hlo|]);
    unfold getWorkoutStats;
    cbn [map WorkoutStats.weeklyAverage WorkoutStats.monthlyAverage];
    rewrite fold_left_add, Z.add_0_l;
    cbn [map] in Hlo, Hhi, Hb;
    rewrite (mathMin_unique _ _ lo Hlo (fun y Hy => proj1 (Hb y Hy)));
    rewrite (mathMax_unique _ _ hi Hhi (fun y Hy => proj2 (Hb y Hy)));
    reflexivity.
Qed.

Lemma averages_divide_by_fractional_periods_witness :
  0 ∈ map start_time [mkStatsRow 30 0; mkStatsRow 30 (31 * JSDate.msPerDay)]
  /\ 31 * JSDate.msPerDay
     ∈ map start_time [mkStatsRow 30 0; mkStatsRow 30 (31 * JSDate.msPerDay)]
  /\ (forall t,
        t ∈ map start_time [mkStatsRow 30 0; mkStatsRow 30 (31 * JSDate.msPerDay)] ->
        0 <= t <= 31 * JSDate.msPerDay)
  /\ WorkoutStats.weeklyAverage
       (getWorkoutStats 0 [mkStatsRow 30 0; mkStatsRow 30 (31 * JSDate.msPerDay)])
     = (inject_Z 60 / Qmax 1 (inject_Z 31 / 7))%Q
  /\ WorkoutStats.monthlyAverage
       (getWorkoutStats 0 [mkStatsRow 30 0; mkStatsRow 30 (31 * JSDate.msPerDay)])
     = (inject_Z 60 / Qmax 1 (inject_Z 31 / 30))%Q
  /\ (31 - 1) * JSDate.msPerDay < 31 * JSDate.msPerDay - 0
     <= 31 * JSDate.msPerDay.
Proof.
  assert (H1 : 0 ∈ map start_time
                 [mkStatsRow 30 0; mkStatsRow 30 (31 * JSDate.msPerDay)])
    by apply list_elem_of_here.
  assert (H2 : 31 * JSDate.msPerDay
               ∈ map start_time
                   [mkStatsRow 30 0; mkStatsRow 30 (31 * JSDate.msPerDay)])
    by apply list_elem_of_further, list_elem_of_here.
  assert (H3 : forall t,
             t ∈ map start_time
                   [mkStatsRow 30 0; mkStatsRow 30 (31 * JSDate.msPerDay)] ->
             0 <= t <= 31 * JSDate.msPerDay).
  { intros t Ht. cbn in Ht.
    apply elem_of_cons in Ht as [->|Ht]; [done|].
    apply list_elem_of_singleton in Ht as ->. done. }
  split; [exact H1|]. split; [exact H2|]. split; [exact H3|].
  exact (averages_divide_by_fractional_periods 0 _ 0 (31 * JSDate.msPerDay) H1 H2 H3).
Defined.

End StatsFacts.

(** ** The calendar *)

Section CalendarFacts.
Import Calendar.

Lemma getTotalDurationForDate_cons tz s sessions date :
  getTotalDurationForDate tz (s :: sessions) date
  = (if decide (JSDate.toDateString tz (WorkoutSession.startTime s)
                = JSDate.toDateString tz date)
     then WorkoutSession.durationMinutes s else 0)
    + getTotalDurationForDate tz sessions date.
Proof.
  unfold getTotalDurationForDate, getSessionsForDate. cbn [List.filter].
  rewrite !fold_left_add.
  destruct (decide (JSDate.toDateString tz (WorkoutSession.startTime s)
                    = JSDate.toDateString tz date)) as [He|Hne].
  - rewrite bool_decide_eq_true_2 by exact He. cbn [map].
    rewrite Zsum_cons. lia.
  - rewrite bool_decide_eq_false_2 by exact Hne. lia.
Qed.

(** Among dates of distinct days, one day is hit exactly once. *)
Lemma one_cell_per_day tz (day v : Z) dates :
  NoDup (map (JSDate.toDateString tz) dates) ->
  day ∈ map (JSDate.toDateString tz) dates ->
  Zsum (map (fun date =>
               if decide (day = JSDate.toDateString tz date) then v else 0)
            dates) = v.
Proof.
  induction dates as [|d dates IH]; cbn [map]; intros Hnd Hin.
  - by apply elem_of_nil in Hin.
  - apply NoDup_cons in Hnd as [Hnotin Hnd]. rewrite Zsum_cons.
    destruct (decide (day = JSDate.toDateString tz d)) as [->|Hne].
    + assert (Zsum (map (fun date =>
                           if decide (JSDate.toDateString tz d
                                      = JSDate.toDateString tz date)
                           then v else 0) dates) = 0) as ->; [|lia].
      clear IH Hin Hnd. induction dates as [|d' dates IH]; [reflexivity|].
      cbn [map] in *. apply not_elem_of_cons in Hnotin as [Hne Hnotin].
      rewrite Zsum_cons.
      destruct (decide _) as [?|_]; [done|]. rewrite IH by exact Hnotin. lia.
    + apply elem_of_cons in Hin as [?|Hin]; [done|].
      rewrite IH by done. lia.
Qed.

Lemma Zsum_map_add {A} (f g : A -> Z) xs :
  Zsum (map (fun x => f x + g x) xs) = Zsum (map f xs) + Zsum (map g xs).
Proof.
  induction xs as [|x xs IH]; [reflexivity|].
  cbn [map]. rewrite !Zsum_cons, IH. lia.
Qed.

(** C8.  Take one date for each calendar day on which a session
    started (and further dates of other days, if any): the totals that
    the calendar shows for these dates add up to the total time of the
    statistics. *)
Theorem day_totals_add_up_to_totalTime tz sessions dates :
  NoDup (map (JSDate.toDateString tz) dates) ->
  (forall s, s ∈ sessions ->
     JSDate.toDateString tz (WorkoutSession.startTime s)
     ∈ map (JSDate.toDateString tz) dates) ->
  Zsum (dayTotals tz sessions dates)
  = WorkoutStats.totalTime (WorkoutService.computeStats tz sessions).
Proof.
  intros Hnd Hcover. unfold WorkoutService.computeStats.
  rewrite stats_totalTime. unfold WorkoutService.totalMinutes, dayTotals.
  induction sessions as [|s sessions IH].
  - cbn [map]. clear. induction dates as [|d dates IH]; [reflexivity|].
    cbn [map]. rewrite Zsum_cons, IH. reflexivity.
  - rewrite (map_ext _ _ (getTotalDurationForDate_cons tz s sessions)).
    rewrite Zsum_map_add.
    rewrite (one_cell_per_day tz _ _ dates Hnd (Hcover s (list_elem_of_here _ _))).
    rewrite IH by (intros s' Hs'; apply Hcover; by apply list_elem_of_further).
    cbn [map]. rewrite Zsum_cons. reflexivity.
Qed.

Lemma day_totals_add_up_to_totalTime_witness :
  NoDup (map (JSDate.toDateString 0) [0; 86400000; 172800000])
  /\ (forall s,
        s ∈ [WorkoutSession.mk "s1" "run" "u" 3600000 30 "c";
             WorkoutSession.mk "s2" "run" "u" 7200000 15 "c";
             WorkoutSession.mk "s3" "gym" "u" 180000000 45 "c"] ->
        JSDate.toDateString 0 (WorkoutSession.startTime s)
        ∈ map (JSDate.toDateString 0) [0; 86400000; 172800000])
  /\ Zsum (dayTotals 0
             [WorkoutSession.mk "s1" "run" "u" 3600000 30 "c";
              WorkoutSession.mk "s2" "run" "u" 7200000 15 "c";
              WorkoutSession.mk "s3" "gym" "u" 180000000 45 "c"]
             [0; 86400000; 172800000])
     = WorkoutStats.totalTime
         (WorkoutService.computeStats 0
            [WorkoutSession.mk "s1" "run" "u" 3600000 30 "c";
             WorkoutSession.mk "s2" "run" "u" 7200000 15 "c";
             WorkoutSession.mk "s3" "gym" "u" 180000000 45 "c"]).
Proof.
  assert (H1 : NoDup (map (JSDate.toDateString 0) [0; 86400000; 172800000])).
  { apply (bool_decide_unpack _). vm_compute. exact I. }
  assert (H2 : forall s,
             s ∈ [WorkoutSession.mk "s1" "run" "u" 3600000 30 "c";
                  WorkoutSession.mk "s2" "run" "u" 7200000 15 "c";
                  WorkoutSession.mk "s3" "gym" "u" 180000000 45 "c"] ->
             JSDate.toDateString 0 (WorkoutSession.startTime s)
             ∈ map (JSDate.toDateString 0) [0; 86400000; 172800000]).
  { intros s Hs. repeat (apply elem_of_cons in Hs as [->|Hs]);
      [| | |by apply elem_of_nil in Hs];
      apply (bool_decide_unpack _); vm_compute; exact I. }
  split; [exact H1|]. split; [exact H2|].
  exact (day_totals_add_up_to_totalTime 0 _ _ H1 H2).
Defined.

End CalendarFacts.

(** ** Dictionaries and the charts built from them *)

Section ObjectFacts.
Context {K : Type} `{EqDecision K}.

Lemma get_set (o : JSObject.t (K:=K)) k v k' :
  JSObject.get (JSObject.set o k v) k'
  = if decide (k' = k) then Some v else JSObject.get o k'.
Proof.
  induction o as [|[k0 v0] o IH]; cbn.
  - by destruct (decide (k' = k)).
  - destruct (decide (k = k0)) as [->|Hne]; cbn.
    + by destruct (decide (k' = k0)).
    + destruct (decide (k' = k0)) as [->|Hne'].
      * destruct (decide (k0 = k)); [congruence|done].
      * exact IH.
Qed.

Lemma get_accumulate (o : JSObject.t (K:=K)) k d k' :
  JSObject.get (JSObject.accumulate o k d) k'
  = if decide (k' = k) then Some (default 0 (JSObject.get o k) + d)
    else JSObject.get o k'.
Proof. unfold JSObject.accumulate. apply get_set. Qed.

(** After a [forEach] that accumulates [val x] under [key x], a key
    that was present or was hit holds its old value plus the values
    filed under it. *)
Lemma get_fold_accumulate {A} (key : A -> K) (val : A -> Z) xs :
  forall (o : JSObject.t (K:=K)) k,
    is_Some (JSObject.get o k) \/ (exists x, x ∈ xs /\ key x = k) ->
    JSObject.get
      (fold_left (fun acc x => JSObject.accumulate acc (key x) (val x)) xs o) k
    = Some (default 0 (JSObject.get o k)
            + Zsum (map val (filter (fun x => key x = k) xs))).
Proof.
  induction xs as [|x xs IH]; intros o k Hk; cbn [fold_left].
  - destruct Hk as [[v Hv]|(x & Hx & _)]; [|by apply elem_of_nil in Hx].
    rewrite Hv. cbn. f_equal. lia.
  - rewrite IH.
    + rewrite get_accumulate. destruct (decide (k = key x)) as [->|Hne].
      * rewrite filter_cons_True by done. cbn [map default id].
        rewrite Zsum_cons. f_equal. lia.
      * rewrite filter_cons_False by congruence. done.
    + rewrite get_accumulate. destruct (decide (k = key x)) as [->|Hne].
      * left. by eexists.
      * destruct Hk as [Hs|(y & Hy & Hky)]; [by left|right].
        apply elem_of_cons in Hy as [->|Hy]; [congruence|]. by exists y.
Qed.

Lemma get_Some_lookup (o : JSObject.t (K:=K)) k v :
  JSObject.get o k = Some v -> exists i, JSObject.entries o !! i = Some (k, v).
Proof.
  unfold JSObject.entries. induction o as [|[k0 v0] o IH]; cbn; [done|].
  destruct (decide (k = k0)) as [->|Hne].
  - intros [= ->]. by exists 0%nat.
  - intros H. destruct (IH H) as [i Hi]. by exists (S i).
Qed.

End ObjectFacts.

Section AnalyticsFacts.
Import Analytics.

Lemma findType_unresolved workoutTypes s :
  (forall t, t ∈ workoutTypes ->
     WorkoutType.id t <> WorkoutSession.workoutTypeId s) ->
  findType workoutTypes s = None.
Proof.
  unfold findType. induction workoutTypes as [|t ts IH]; intros H; [done|].
  cbn. destruct (String.eqb_spec (WorkoutType.id t) (WorkoutSession.workoutTypeId s))
    as [Heq|_].
  - destruct (H t (list_elem_of_here _ _) Heq).
  - apply IH. intros t' Ht'. apply H. by apply list_elem_of_further.
Qed.

(** C9.  A session whose type id matches no workout type is filed under
    the name "Unknown", and the chart has a slice of that name whose
    duration is the total of the sessions filed under it, this one
    among them. *)
Theorem unresolved_type_counts_as_Unknown workoutTypes sessions s :
  s ∈ sessions ->
  (forall t, t ∈ workoutTypes ->
     WorkoutType.id t <> WorkoutSession.workoutTypeId s) ->
  typeName workoutTypes s = "Unknown"%string
  /\ s ∈ filter (fun x => typeName workoutTypes x = "Unknown"%string) sessions
  /\ exists index color,
       getWorkoutTypeData workoutTypes sessions !! index
       = Some (mkTypeSlice "Unknown"
                 (Zsum (map WorkoutSession.durationMinutes
                          (filter (fun x => typeName workoutTypes x = "Unknown"%string)
                                  sessions)))
                 color).
Proof.
  intros Hs Hnone.
  assert (Hname : typeName workoutTypes s = "Unknown"%string)
    by (unfold typeName; by rewrite findType_unresolved).
  split; [exact Hname|]. split; [by apply list_elem_of_filter|].
  pose proof (get_fold_accumulate (typeName workoutTypes)
                WorkoutSession.durationMinutes sessions [] "Unknown"%string
                (or_intror (ex_intro _ s (conj Hs Hname)))) as Hget.
  cbn [JSObject.get default] in Hget. rewrite Z.add_0_l in Hget.
  apply get_Some_lookup in Hget as [i Hi].
  exists i. eexists. unfold getWorkoutTypeData.
  rewrite list_lookup_imap. unfold typeTotals. rewrite Hi. reflexivity.
Qed.

Lemma unresolved_type_counts_as_Unknown_witness :
  WorkoutSession.mk "s2" "gone" "u" 7200000 15 "c"
  ∈ [WorkoutSession.mk "s1" "run" "u" 3600000 30 "c";
     WorkoutSession.mk "s2" "gone" "u" 7200000 15 "c";
     WorkoutSession.mk "s3" "lost" "u" 180000000 45 "c"]
  /\ (forall t, t ∈ [WorkoutType.mk "run" "Running" "u" "c"] ->
        WorkoutType.id t
        <> WorkoutSession.workoutTypeId (WorkoutSession.mk "s2" "gone" "u" 7200000 15 "c"))
  /\ typeName [WorkoutType.mk "run" "Running" "u" "c"]
       (WorkoutSession.mk "s2" "gone" "u" 7200000 15 "c") = "Unknown"%string
  /\ getWorkoutTypeData [WorkoutType.mk "run" "Running" "u" "c"]
       [WorkoutSession.mk "s1" "run" "u" 3600000 30 "c";
        WorkoutSession.mk "s2" "gone" "u" 7200000 15 "c";
        WorkoutSession.mk "s3" "lost" "u" 180000000 45 "c"]
     = [mkTypeSlice "Running" 30 "#2563EB"; mkTypeSlice "Unknown" 60 "#10B981"].
Proof.
  assert (H1 : WorkoutSession.mk "s2" "gone" "u" 7200000 15 "c"
               ∈ [WorkoutSession.mk "s1" "run" "u" 3600000 30 "c";
                  WorkoutSession.mk "s2" "gone" "u" 7200000 15 "c";
                  WorkoutSession.mk "s3" "lost" "u" 180000000 45 "c"])
    by apply list_elem_of_further, list_elem_of_here.
  assert (H2 : forall t, t ∈ [WorkoutType.mk "run" "Running" "u" "c"] ->
             WorkoutType.id t
             <> WorkoutSession.workoutTypeId
                  (WorkoutSession.mk "s2" "gone" "u" 7200000 15 "c")).
  { intros t Ht. apply list_elem_of_singleton in Ht as ->. discriminate. }
  split; [exact H1|]. split; [exact H2|].
  split; [|reflexivity].
  exact (proj1 (unresolved_type_counts_as_Unknown _ _ _ H1 H2)).
Defined.

(** C3 (the code at the failing input).  Nine sessions of 30 minutes,
    one on each of nine consecutive Sundays (days 3, 10, ..., 59 after
    the epoch), in the order in which [getWorkoutSessions] delivers
    them, newest first, seen from UTC: the chart data run from the
    newer to the older weeks, and the week that is dropped is the most
    recent one, that of day 59. *)
Lemma getWeeklyData_newest_first :
  getWeeklyData 0
    (map (fun day => WorkoutSession.mk "s" "t" "u" (day * JSDate.msPerDay) 30 "c")
         [59; 52; 45; 38; 31; 24; 17; 10; 3])
  = map (fun day => mkWeekPoint day 30) [52; 45; 38; 31; 24; 17; 10; 3].
Proof. vm_compute. reflexivity. Qed.

End AnalyticsFacts.

(** ** Creating sessions *)

Section CreationFacts.

Lemma roundDiv_minutes_positive e :
  0 <= e -> JSNumber.roundDiv e 60 <> 0 -> 1 <= JSNumber.roundDiv e 60.
Proof.
  unfold JSNumber.roundDiv. intros He Hne.
  assert (0 <= (2 * e + 60) / (2 * 60)) by (apply Z.div_pos; lia). lia.
Qed.

Lemma clockOrdered_elapsed_nonneg history :
  Timer.clockOrdered history ->
  0 <= Timer.elapsedTime (Timer.run history Timer.initial).
Proof.
  intros H.
  assert (exists t0, Timer.clockMonotone t0 history) as [t0 Hm].
  { destruct history as [|[t0 e] tr]; [by exists 0|]. by exists t0. }
  pose proof (consistent_run history t0 Timer.initial Hm (consistent_initial t0)) as Hc.
  apply consistent_reading in Hc. lia.
Qed.

(** C10 (violated by the timer flow).  The clock is set back by 31 s
    after the start, the interval fires, and Finish is clicked one
    second later: [elapsedTime] is -31, [Math.round(-31 / 60)] is -1,
    which is not [=== 0], and the store is asked for a session of -1
    minutes.  The form refuses the same duration, since it tests
    [<= 0]. *)
Lemma finish_saves_a_negative_duration :
  Timer.elapsedTime
    (Timer.run [(100000, Timer.Start); (69000, Timer.Tick)] Timer.initial) = -31
  /\ Creation.requests
       (Creation.TimerFinish [(100000, Timer.Start); (69000, Timer.Tick)]
                             "run" 70000 true)
     = [WorkoutService.mkNewSession "run" 101000 (-1)]
  /\ Creation.requests
       (Creation.ManualSubmit (fun _ => Some 0)
          (ManualEntry.mkForm "run" "2024-01-01" "10:00" "-1") true) = [].
Proof. repeat split; reflexivity. Qed.

(** What the two flows do keep.  As long as the clock does not go back
    during a timed workout, whatever either flow hands to
    [createWorkoutSession] lasts at least one minute: the timer flow
    stops at a rounded duration of 0, the form at a duration that is
    not a number or not positive. *)
Theorem created_sessions_last_a_minute f request :
  Creation.clockSound f ->
  request ∈ Creation.requests f ->
  1 <= WorkoutService.durationMinutes request.
Proof.
  destruct f as [history selected now saved|parseLocal form saved]; cbn.
  - intros Hclock. apply clockOrdered_elapsed_nonneg in Hclock.
    unfold WorkoutTimer.handleFinish. cbn.
    destruct (WorkoutTimer.noneSelected _); cbn; [by intros ?%elem_of_nil|].
    destruct (Z.eqb_spec
                (JSNumber.roundDiv
                   (Timer.elapsedTime (Timer.run history Timer.initial)) 60) 0)
      as [_|Hne]; cbn; [by intros ?%elem_of_nil|].
    destruct saved; cbn; intros ->%list_elem_of_singleton; cbn;
      by apply roundDiv_minutes_positive.
  - intros _. unfold ManualEntry.handleSubmit.
    destruct (_ || _); cbn; [by intros ?%elem_of_nil|].
    destruct (JSNumber.parseInt _) as [durationMinutes|]; cbn;
      [|by intros ?%elem_of_nil].
    destruct (Z.leb_spec durationMinutes 0); cbn; [by intros ?%elem_of_nil|].
    destruct (parseLocal _); cbn; [|by intros ?%elem_of_nil].
    destruct saved; cbn; intros ->%list_elem_of_singleton; cbn; lia.
Qed.

Lemma created_sessions_last_a_minute_witness :
  Creation.clockSound
    (Creation.TimerFinish [(0, Timer.Start); (29000, Timer.Tick); (30000, Timer.Tick)]
                          "run" 30500 true)
  /\ WorkoutService.mkNewSession "run" 500 1
     ∈ Creation.requests
         (Creation.TimerFinish [(0, Timer.Start); (29000, Timer.Tick); (30000, Timer.Tick)]
                               "run" 30500 true)
  /\ 1 <= WorkoutService.durationMinutes (WorkoutService.mkNewSession "run" 500 1).
Proof.
  assert (H1 : Creation.clockSound
                 (Creation.TimerFinish
                    [(0, Timer.Start); (29000, Timer.Tick); (30000, Timer.Tick)]
                    "run" 30500 true)) by (cbn; lia).
  assert (H2 : WorkoutService.mkNewSession "run" 500 1
               ∈ Creation.requests
                   (Creation.TimerFinish
                      [(0, Timer.Start); (29000, Timer.Tick); (30000, Timer.Tick)]
                      "run" 30500 true)) by apply list_elem_of_here.
  split; [exact H1|]. split; [exact H2|].
  exact (created_sessions_last_a_minute _ _ H1 H2).
Defined.

(** The form asks the store for nothing unless the duration reads as a
    positive number. *)
Example manual_entry_examples :
  Creation.requests
    (Creation.ManualSubmit (fun _ => Some 0)
       (ManualEntry.mkForm "run" "2024-01-01" "10:00" "45") true)
  = [WorkoutService.mkNewSession "run" 0 45]
  /\ Creation.requests
       (Creation.ManualSubmit (fun _ => Some 0)
          (ManualEntry.mkForm "run" "2024-01-01" "10:00" "0.5") true) = []
  /\ Creation.requests
       (Creation.ManualSubmit (fun _ => Some 0)
          (ManualEntry.mkForm "run" "2024-01-01" "10:00" "-5") true) = []
  /\ Creation.requests
       (Creation.ManualSubmit (fun _ => Some 0)
          (ManualEntry.mkForm "run" "2024-01-01" "10:00" "abc") true) = []
  /\ Creation.requests
       (Creation.TimerFinish [(0, Timer.Start); (29000, Timer.Tick)] "run" 29500 true)
     = [].
Proof. repeat split; reflexivity. Qed.

End CreationFacts.


(** * Further properties of the code *)

(** ** The stopwatch, whatever the clock does *)

Section TimerMore.
Import Timer.

(** X1.  The interval callback is a display refresh only: a history and
    the same history without its ticks end in states with the same
    flags, the same segment start and the same baseline. *)
Theorem ticks_only_refresh_display tr :
  isRunning (run tr initial) = isRunning (run (calls tr) initial)
  /\ isPaused (run tr initial) = isPaused (run (calls tr) initial)
  /\ startTime (run tr initial) = startTime (run (calls tr) initial)
  /\ pausedTime (run tr initial) = pausedTime (run (calls tr) initial).
Proof. exact (run_calls tr initial initial (sameCore_refl initial)). Qed.

(** X2.  After any history the five cells fit together: an idle timer
    is exactly the initial state, and a running or paused one has
    [isRunning] set and a segment start. *)
Theorem reachable_states_fit_together tr :
  match phase (run tr initial) with
  | Idle => run tr initial = initial
  | Running | Paused =>
      isRunning (run tr initial) = true /\ is_Some (startTime (run tr initial))
  end.
Proof.
  assert (H : forall st,
             match phase st with
             | Idle => st = initial
             | _ => isRunning st = true /\ is_Some (startTime st)
             end ->
             match phase (run tr st) with
             | Idle => run tr st = initial
             | _ => isRunning (run tr st) = true /\ is_Some (startTime (run tr st))
             end).
  { induction tr as [|[t e] tr IH]; intros st Hst; [exact Hst|].
    rewrite run_cons. apply IH. by apply shape_step. }
  specialize (H initial eq_refl).
  destruct (phase (run tr initial)); exact H.
Qed.

(** X3.  While the clock does not go back, the displayed time never
    decreases, except when the timer is started anew, stopped or
    reset. *)
Theorem display_never_runs_backwards t0 tr t e :
  clockMonotone t0 tr -> lastInstant t0 tr <= t ->
  e <> Start -> e <> Stop -> e <> Reset ->
  elapsedTime (run tr initial) <= elapsedTime (step t e (run tr initial)).
Proof.
  intros Hm Ht H1 H2 H3.
  pose proof (consistent_run tr t0 initial Hm (consistent_initial t0)) as Hc.
  apply (consistent_later _ t _ Ht) in Hc.
  revert Hc. generalize (run tr initial). intros [r p s el pa].
  destruct e; try done; unfold consistent, phase; cbn;
    unfold pauseTimer, resumeTimer, tick, runningSegment; cbn;
    destruct p, r; cbn; try destruct s; cbn; try lia.
  intros (start & [= <-] & _ & _ & ?). lia.
Qed.

Lemma display_never_runs_backwards_witness :
  clockMonotone 0 [(0, Start); (5000, Tick); (5500, Pause); (9000, Resume)]
  /\ lastInstant 0 [(0, Start); (5000, Tick); (5500, Pause); (9000, Resume)] <= 9999
  /\ elapsedTime (run [(0, Start); (5000, Tick); (5500, Pause); (9000, Resume)] initial)
     <= elapsedTime
          (step 9999 Tick
             (run [(0, Start); (5000, Tick); (5500, Pause); (9000, Resume)] initial)).
Proof.
  assert (H1 : clockMonotone 0
                 [(0, Start); (5000, Tick); (5500, Pause); (9000, Resume)])
    by (cbn; lia).
  assert (H2 : lastInstant 0
                 [(0, Start); (5000, Tick); (5500, Pause); (9000, Resume)] <= 9999)
    by (cbn; lia).
  split; [exact H1|]. split; [exact H2|].
  apply (display_never_runs_backwards 0 _ 9999 Tick H1 H2); discriminate.
Defined.

End TimerMore.

(** ** The timer component *)

Section WorkoutTimerMore.
Import WorkoutTimer.

Lemma act_keeps_type now a c :
  Timer.phase (timer c) = Timer.Idle \/ noneSelected c = false ->
  Timer.phase (timer (act now a c)) = Timer.Idle
  \/ noneSelected (act now a c) = false.
Proof.
  intros Hinv. unfold act. destruct (available a c) eqn:Hav; [|exact Hinv].
  assert (Hflags : Timer.phase (timer c) <> Timer.Idle -> noneSelected c = false).
  { intros Hne. by destruct Hinv. }
  destruct c as [[r p s el pa] sel].
  destruct a; cbn in *;
    unfold selectShown, startShown, pauseShown, resumeShown, finishShown,
      discardShown, noneSelected, Timer.phase in *; cbn in *.
  - left. by destruct p, r.
  - unfold handleStart, noneSelected. cbn.
    destruct sel; cbn in *; [by destruct r, p|by right].
  - right. subst r. apply Hflags. by destruct p.
  - right. subst p. by apply Hflags.
  - unfold handleFinish, noneSelected. cbn.
    destruct sel; cbn; [exact Hinv|].
    destruct (_ =? 0); cbn; [exact Hinv|]. destruct saved; cbn; [by left|exact Hinv].
  - by left.
  - unfold Timer.tick, Timer.runningSegment. cbn.
    destruct r, p; cbn; try exact Hinv; destruct s; cbn; exact Hinv.
Qed.

(** X4.  However the controls that the component renders are used, a
    timer that is running or paused has a workout type selected, so
    that Finish never ends in "No workout type selected". *)
Theorem timed_workout_has_a_type actions now saved :
  Timer.phase (timer (use actions initial)) <> Timer.Idle ->
  noneSelected (use actions initial) = false
  /\ (handleFinish now saved (use actions initial)).2
     <> [ToastError "No workout type selected"].
Proof.
  assert (H : forall c,
             Timer.phase (timer c) = Timer.Idle \/ noneSelected c = false ->
             Timer.phase (timer (use actions c)) = Timer.Idle
             \/ noneSelected (use actions c) = false).
  { induction actions as [|[t a] actions IH]; intros c Hc; [exact Hc|].
    cbn. apply IH. by apply act_keeps_type. }
  intros Hne. destruct (H initial (or_introl eq_refl)) as [?|Hsel]; [done|].
  split; [exact Hsel|]. unfold handleFinish. rewrite Hsel.
  destruct (_ =? 0); [discriminate|]. destruct saved; discriminate.
Qed.

Lemma timed_workout_has_a_type_witness :
  Timer.phase
    (timer (use [(0, SelectType "run"); (1000, ClickStart); (2000, IntervalTick);
                 (2500, ClickPause); (3000, SelectType EmptyString)] initial))
  <> Timer.Idle
  /\ noneSelected
       (use [(0, SelectType "run"); (1000, ClickStart); (2000, IntervalTick);
             (2500, ClickPause); (3000, SelectType EmptyString)] initial) = false
  /\ (handleFinish 4000 true
        (use [(0, SelectType "run"); (1000, ClickStart); (2000, IntervalTick);
              (2500, ClickPause); (3000, SelectType EmptyString)] initial)).2
     <> [ToastError "No workout type selected"].
Proof.
  assert (H : Timer.phase
                (timer (use [(0, SelectType "run"); (1000, ClickStart);
                             (2000, IntervalTick); (2500, ClickPause);
                             (3000, SelectType EmptyString)] initial))
              <> Timer.Idle) by (cbv; discriminate).
  split; [exact H|].
  exact (timed_workout_has_a_type _ 4000 true H).
Defined.

Lemma roundDiv_minutes_zero e : JSNumber.roundDiv e 60 = 0 <-> -30 <= e < 30.
Proof.
  unfold JSNumber.roundDiv.
  pose proof (Z.div_mod (2 * e + 60) (2 * 60) ltac:(lia)).
  pose proof (Z.mod_pos_bound (2 * e + 60) (2 * 60) ltac:(lia)). lia.
Qed.

Lemma roundDiv_minutes_near e : -30 < 60 * JSNumber.roundDiv e 60 - e <= 30.
Proof.
  unfold JSNumber.roundDiv.
  pose proof (Z.div_mod (2 * e + 60) (2 * 60) ltac:(lia)).
  pose proof (Z.mod_pos_bound (2 * e + 60) (2 * 60) ltac:(lia)). lia.
Qed.

(** X5.  With a type selected, Finish hands a session to the store
    exactly when the displayed time is not within -30 .. 29 seconds:
    from 30 seconds on, a workout can be saved. *)
Theorem finish_saves_from_thirty_seconds now saved c :
  noneSelected c = false ->
  (exists session, CreateWorkoutSession session ∈ (handleFinish now saved c).2)
  <-> ~ (-30 <= Timer.elapsedTime (timer c) < 30).
Proof.
  intros Hsel. unfold handleFinish. rewrite Hsel.
  destruct (Z.eqb_spec (JSNumber.roundDiv (Timer.elapsedTime (timer c)) 60) 0)
    as [Hz|Hnz].
  - apply roundDiv_minutes_zero in Hz. split; [|done].
    intros [session Hin]. cbn in Hin.
    apply list_elem_of_singleton in Hin. discriminate.
  - rewrite roundDiv_minutes_zero in Hnz. split; [done|]. intros _.
    eexists. destruct saved; cbn; apply list_elem_of_here.
Qed.

Lemma finish_saves_from_thirty_seconds_witness :
  noneSelected (mkState (Timer.mkTimer true false (Some 0) 30 0) "run") = false
  /\ ((exists session,
         CreateWorkoutSession session
         ∈ (handleFinish 30500 true
              (mkState (Timer.mkTimer true false (Some 0) 30 0) "run")).2)
      <-> ~ (-30 <= Timer.elapsedTime
                      (timer (mkState (Timer.mkTimer true false (Some 0) 30 0) "run"))
             < 30)).
Proof.
  split; [reflexivity|].
  exact (finish_saves_from_thirty_seconds 30500 true
           (mkState (Timer.mkTimer true false (Some 0) 30 0) "run") eq_refl).
Defined.

(** X6.  The session that Finish hands to the store starts as many
    seconds before the click as the display shows, and its duration in
    minutes makes it end within half a minute of the click. *)
Theorem saved_session_ends_at_the_click now saved c session :
  CreateWorkoutSession session ∈ (handleFinish now saved c).2 ->
  WorkoutService.workoutTypeId session = selectedWorkoutType c
  /\ WorkoutService.startTime session = now - Timer.elapsedTime (timer c) * 1000
  /\ -30000
     < WorkoutService.startTime session
       + WorkoutService.durationMinutes session * 60000 - now
     <= 30000.
Proof.
  unfold handleFinish.
  destruct (noneSelected c); cbn.
  { intros Hin. apply list_elem_of_singleton in Hin. discriminate. }
  destruct (_ =? 0); cbn.
  { intros Hin. apply list_elem_of_singleton in Hin. discriminate. }
  pose proof (roundDiv_minutes_near (Timer.elapsedTime (timer c))).
  destruct saved; cbn; intros Hin;
    (apply elem_of_cons in Hin as [[= ->]|Hin];
     [|apply list_elem_of_singleton in Hin; discriminate]);
    cbn; repeat split; lia.
Qed.

Lemma saved_session_ends_at_the_click_witness :
  CreateWorkoutSession (WorkoutService.mkNewSession "run" 10000 2)
  ∈ (handleFinish 110000 true
       (mkState (Timer.mkTimer true false (Some 9500) 100 0) "run")).2
  /\ WorkoutService.workoutTypeId (WorkoutService.mkNewSession "run" 10000 2)
     = selectedWorkoutType
         (mkState (Timer.mkTimer true false (Some 9500) 100 0) "run")
  /\ WorkoutService.startTime (WorkoutService.mkNewSession "run" 10000 2)
     = 110000
       - Timer.elapsedTime
           (timer (mkState (Timer.mkTimer true false (Some 9500) 100 0) "run")) * 1000
  /\ -30000
     < WorkoutService.startTime (WorkoutService.mkNewSession "run" 10000 2)
       + WorkoutService.durationMinutes (WorkoutService.mkNewSession "run" 10000 2)
         * 60000 - 110000
     <= 30000.
Proof.
  assert (H : CreateWorkoutSession (WorkoutService.mkNewSession "run" 10000 2)
              ∈ (handleFinish 110000 true
                   (mkState (Timer.mkTimer true false (Some 9500) 100 0) "run")).2)
    by apply list_elem_of_here.
  split; [exact H|].
  exact (saved_session_ends_at_the_click 110000 true _ _ H).
Defined.

End WorkoutTimerMore.

(** ** What the displays print *)

Section DisplayFacts.

Lemma length_append s1 s2 :
  String.length (s1 +:+ s2) = (String.length s1 + String.length s2)%nat.
Proof. induction s1 as [|c s1 IH]; [reflexivity|]. simpl. f_equal. exact IH. Qed.

(** Below one hundred, two digits are always printed. *)
Lemma two_digits n :
  0 <= n < 100 ->
  String.length (JSString.padStart 2 "0" (JSString.toString n)) = 2%nat.
Proof.
  intros Hn.
  assert (H : Forall (fun n => String.length
                                 (JSString.padStart 2 "0" (JSString.toString n))
                               = 2%nat) (seqZ 0 100)).
  { apply (bool_decide_unpack _). vm_compute. exact I. }
  rewrite Forall_forall in H. apply H. apply elem_of_seqZ. lia.
Qed.

Lemma time_fields h m s :
  0 <= h -> 0 <= m < 60 -> 0 <= s < 60 ->
  (h * 3600 + m * 60 + s) / 3600 = h
  /\ Z.rem (h * 3600 + m * 60 + s) 3600 / 60 = m
  /\ Z.rem (h * 3600 + m * 60 + s) 60 = s.
Proof.
  intros Hh Hm Hs.
  rewrite !Z.rem_mod_nonneg by lia.
  assert (H1 : (h * 3600 + m * 60 + s) / 3600 = h)
    by (symmetry; apply (Z.div_unique _ _ h (m * 60 + s)); lia).
  assert (H2 : (h * 3600 + m * 60 + s) mod 3600 = m * 60 + s)
    by (symmetry; apply (Z.mod_unique _ _ h (m * 60 + s)); lia).
  assert (H3 : (h * 3600 + m * 60 + s) mod 60 = s)
    by (symmetry; apply (Z.mod_unique _ _ (h * 60 + m) s); lia).
  rewrite H2. repeat split; try done.
  symmetry. apply (Z.div_unique _ _ m s); lia.
Qed.

(** X7.  A time of [h] hours, [m] minutes and [s] seconds is printed
    from exactly these three numbers, each padded to two digits, the
    hours only when there are any. *)
Theorem formatTime_prints_the_fields h m s :
  0 <= h -> 0 <= m < 60 -> 0 <= s < 60 ->
  WorkoutTimer.formatTime (h * 3600 + m * 60 + s)
  = if 0 <? h
    then JSString.padStart 2 "0" (JSString.toString h) +:+ ":"
         +:+ JSString.padStart 2 "0" (JSString.toString m) +:+ ":"
         +:+ JSString.padStart 2 "0" (JSString.toString s)
    else JSString.padStart 2 "0" (JSString.toString m) +:+ ":"
         +:+ JSString.padStart 2 "0" (JSString.toString s).
Proof.
  intros Hh Hm Hs. unfold WorkoutTimer.formatTime.
  destruct (time_fields h m s Hh Hm Hs) as (-> & -> & ->). reflexivity.
Qed.

Lemma formatTime_prints_the_fields_witness :
  0 <= 1 /\ 0 <= 2 < 60 /\ 0 <= 5 < 60
  /\ WorkoutTimer.formatTime (1 * 3600 + 2 * 60 + 5) = "01:02:05"%string.
Proof.
  split; [lia|]. split; [lia|]. split; [lia|].
  exact (formatTime_prints_the_fields 1 2 5 ltac:(lia) ltac:(lia) ltac:(lia)).
Defined.

(** X8.  Up to a hundred hours the display keeps its width: five
    characters below one hour, eight from then on. *)
Theorem formatTime_width seconds :
  0 <= seconds < 360000 ->
  String.length (WorkoutTimer.formatTime seconds)
  = if seconds <? 3600 then 5%nat else 8%nat.
Proof.
  intros Hs. unfold WorkoutTimer.formatTime.
  rewrite !Z.rem_mod_nonneg by lia.
  pose proof (Z.mod_pos_bound seconds 3600 ltac:(lia)) as Hm.
  pose proof (Z.mod_pos_bound seconds 60 ltac:(lia)) as Hsec.
  assert (0 <= seconds / 3600 < 100)
    by (split; [apply Z.div_pos; lia|apply Z.div_lt_upper_bound; lia]).
  assert (0 <= seconds mod 3600 / 60 < 60)
    by (split; [apply Z.div_pos; lia|apply Z.div_lt_upper_bound; lia]).
  destruct (Z.ltb_spec seconds 3600) as [Hlt|Hge].
  - rewrite Z.div_small by lia. cbn [Z.ltb Z.compare].
    rewrite !length_append, !two_digits by lia. reflexivity.
  - assert (0 < seconds / 3600) by (apply Z.div_str_pos; lia).
    destruct (Z.ltb_spec 0 (seconds / 3600)); [|lia].
    rewrite !length_append, !two_digits by lia. reflexivity.
Qed.

Lemma formatTime_width_witness :
  0 <= 3725 < 360000
  /\ String.length (WorkoutTimer.formatTime 3725)
     = if 3725 <? 3600 then 5%nat else 8%nat.
Proof.
  split; [lia|]. exact (formatTime_width 3725 ltac:(lia)).
Defined.

(** X9.  A duration of [h] hours and [m] minutes is printed as
    "[h]h [m]m", and as "[m]m" alone below one hour. *)
Theorem formatDuration_prints_hours_and_minutes h m :
  0 <= h -> 0 <= m < 60 ->
  Calendar.formatDuration (h * 60 + m)
  = if 0 <? h
    then JSString.toString h +:+ "h " +:+ JSString.toString m +:+ "m"
    else JSString.toString m +:+ "m".
Proof.
  intros Hh Hm. unfold Calendar.formatDuration.
  rewrite Z.rem_mod_nonneg by lia.
  assert ((h * 60 + m) / 60 = h) as ->
    by (symmetry; apply (Z.div_unique _ _ h m); lia).
  assert ((h * 60 + m) mod 60 = m) as ->
    by (symmetry; apply (Z.mod_unique _ _ h m); lia).
  reflexivity.
Qed.

Lemma formatDuration_prints_hours_and_minutes_witness :
  0 <= 2 /\ 0 <= 5 < 60
  /\ Calendar.formatDuration (2 * 60 + 5) = "2h 5m"%string.
Proof.
  split; [lia|]. split; [lia|].
  exact (formatDuration_prints_hours_and_minutes 2 5 ltac:(lia) ltac:(lia)).
Defined.

End DisplayFacts.

(** ** More about the statistics *)

Section StatsMore.
Import WorkoutService.

Lemma Qdiv_le_divisor (T a b : Q) :
  (0 <= T -> 0 < a -> a <= b -> T / b <= T / a)%Q.
Proof.
  intros HT Ha Hab.
  assert (Hb : (0 < b)%Q) by (eapply Qlt_le_trans; eauto).
  apply Qle_shift_div_l; [exact Ha|].
  setoid_replace (T / b * a)%Q with ((T * a) / b)%Q using relation Qeq
    by (field; lra).
  apply Qle_shift_div_r; [exact Hb|].
  rewrite (Qmult_comm T a), (Qmult_comm T b).
  apply Qmult_le_compat_r; assumption.
Qed.

Lemma size_list_to_set_le (l : list Z) :
  (size (list_to_set l : gset Z) <= length l)%nat
  /\ (l <> [] -> 1 <= size (list_to_set l : gset Z))%nat.
Proof.
  split.
  - induction l as [|x l IH]; cbn [list_to_set length].
    + rewrite size_empty. lia.
    + destruct (decide (x ∈ (list_to_set l : gset Z))).
      * rewrite (subseteq_union_1_L {[x]} (list_to_set l : gset Z))
          by (by apply singleton_subseteq_l).
        lia.
      * rewrite size_union by set_solver. rewrite size_singleton. lia.
  - destruct l as [|x l]; [done|]. intros _. cbn [list_to_set].
    assert (size ({[x]} ∪ list_to_set l : gset Z) <> 0%nat); [|lia].
    apply size_non_empty_iff. set_solver.
Qed.

(** The range of days of a non-empty list of rows, by its extremes. *)
Lemma daysDiff_bounds d dates :
  0 <= JSNumber.ceilDiv (mathMax d dates - mathMin d dates) (1000 * 60 * 60 * 24)
  /\ forall span,
       (forall t t', t ∈ d :: dates -> t' ∈ d :: dates ->
                     t' - t <= span * (1000 * 60 * 60 * 24)) ->
       JSNumber.ceilDiv (mathMax d dates - mathMin d dates) (1000 * 60 * 60 * 24)
       <= span.
Proof.
  destruct (mathMin_spec d dates) as [Hmin Hle].
  destruct (mathMax_spec d dates) as [Hmax Hge].
  pose proof (Hle _ Hmax) as Hord.
  pose proof (ceilDiv_spec (mathMax d dates - mathMin d dates)
                (1000 * 60 * 60 * 24) ltac:(lia)) as Hc.
  split; [nia|]. intros span Hspan. specialize (Hspan _ _ Hmin Hmax). nia.
Qed.

(** X10.  For a non-empty set of rows the number of training days is
    at least 1 and at most the number of sessions, which is the number
    of rows. *)
Theorem trainingDays_between_one_and_sessions tz sessions :
  sessions <> [] ->
  1 <= WorkoutStats.trainingDays (getWorkoutStats tz sessions)
    <= WorkoutStats.totalSessions (getWorkoutStats tz sessions)
  /\ WorkoutStats.totalSessions (getWorkoutStats tz sessions)
     = Z.of_nat (length sessions).
Proof.
  destruct sessions as [|r rows]; [done|]. intros _.
  unfold getWorkoutStats. cbn [map WorkoutStats.trainingDays
    WorkoutStats.totalSessions WorkoutStats.dailyAverage WorkoutStats.totalTime].
  destruct (size_list_to_set_le
              (map (fun s => JSDate.toDateString tz (start_time s)) (r :: rows)))
    as [Hle Hge].
  rewrite length_map in Hle. specialize (Hge ltac:(done)).
  fold (uniqueDays tz (r :: rows)) in Hle, Hge.
  split; [lia|reflexivity].
Qed.

Lemma trainingDays_between_one_and_sessions_witness :
  [mkStatsRow 30 0; mkStatsRow 45 3600000; mkStatsRow 20 90000000] <> []
  /\ 1 <= WorkoutStats.trainingDays
            (getWorkoutStats 0
               [mkStatsRow 30 0; mkStatsRow 45 3600000; mkStatsRow 20 90000000])
       <= WorkoutStats.totalSessions
            (getWorkoutStats 0
               [mkStatsRow 30 0; mkStatsRow 45 3600000; mkStatsRow 20 90000000])
  /\ WorkoutStats.totalSessions
       (getWorkoutStats 0
          [mkStatsRow 30 0; mkStatsRow 45 3600000; mkStatsRow 20 90000000])
     = 3.
Proof.
  assert (H : [mkStatsRow 30 0; mkStatsRow 45 3600000; mkStatsRow 20 90000000] <> [])
    by discriminate.
  split; [exact H|].
  exact (trainingDays_between_one_and_sessions 0 _ H).
Defined.

(** X11.  When no duration is negative, the averages are ordered: the
    weekly average is at most the monthly average, which is at most
    the total time, and none is negative. *)
Theorem averages_are_ordered tz sessions :
  (forall r, r ∈ sessions -> 0 <= duration_minutes r) ->
  (0 <= WorkoutStats.weeklyAverage (getWorkoutStats tz sessions))%Q
  /\ (WorkoutStats.weeklyAverage (getWorkoutStats tz sessions)
      <= WorkoutStats.monthlyAverage (getWorkoutStats tz sessions))%Q
  /\ (WorkoutStats.monthlyAverage (getWorkoutStats tz sessions)
      <= inject_Z (WorkoutStats.totalTime (getWorkoutStats tz sessions)))%Q.
Proof.
  intros Hpos.
  assert (Htotal : 0 <= totalMinutes sessions).
  { unfold totalMinutes. clear -Hpos.
    induction sessions as [|r rows IH]; [done|].
    cbn [map]. rewrite Zsum_cons.
    pose proof (Hpos r (list_elem_of_here _ _)).
    specialize (IH (fun r' Hr' => Hpos r' (list_elem_of_further _ _ _ Hr'))). lia. }
  pose proof (stats_totalTime tz sessions) as Htt.
  destruct sessions as [|r rows]; [repeat split; apply (Qle_refl 0)|].
  revert Htt. unfold getWorkoutStats.
  cbn [map WorkoutStats.weeklyAverage WorkoutStats.monthlyAverage
       WorkoutStats.totalTime]. intros ->.
  destruct (daysDiff_bounds (start_time r) (map start_time rows)) as [Hd _].
  set (days := JSNumber.ceilDiv _ _) in *.
  assert (HT : (0 <= inject_Z (totalMinutes (r :: rows)))%Q)
    by (rewrite <- (Zle_Qle 0); exact Htotal).
  assert (HD : (0 <= inject_Z days)%Q) by (rewrite <- (Zle_Qle 0); exact Hd).
  pose proof (Q.le_max_l 1 (inject_Z days / 7)) as Hw1.
  pose proof (Q.le_max_l 1 (inject_Z days / 30)) as Hm1.
  assert (Hmw : (Qmax 1 (inject_Z days / 30) <= Qmax 1 (inject_Z days / 7))%Q).
  { apply Q.max_le_compat_l. apply Qdiv_le_divisor; [exact HD|lra|lra]. }
  split; [|split].
  - apply Qle_shift_div_l; [lra|]. lra.
  - apply Qdiv_le_divisor; [exact HT|lra|exact Hmw].
  - apply Qle_shift_div_r; [lra|].
    rewrite <- (Qmult_1_r (inject_Z (totalMinutes (r :: rows)))) at 1.
    rewrite !(Qmult_comm (inject_Z (totalMinutes (r :: rows)))).
    apply Qmult_le_compat_r; [exact Hm1|exact HT].
Qed.

Lemma averages_are_ordered_witness :
  (forall r, r ∈ [mkStatsRow 30 0; mkStatsRow 30 (31 * JSDate.msPerDay)] ->
             0 <= duration_minutes r)
  /\ (0 <= WorkoutStats.weeklyAverage
             (getWorkoutStats 0
                [mkStatsRow 30 0; mkStatsRow 30 (31 * JSDate.msPerDay)]))%Q
  /\ (WorkoutStats.weeklyAverage
        (getWorkoutStats 0 [mkStatsRow 30 0; mkStatsRow 30 (31 * JSDate.msPerDay)])
      <= WorkoutStats.monthlyAverage
           (getWorkoutStats 0
              [mkStatsRow 30 0; mkStatsRow 30 (31 * JSDate.msPerDay)]))%Q
  /\ (WorkoutStats.monthlyAverage
        (getWorkoutStats 0 [mkStatsRow 30 0; mkStatsRow 30 (31 * JSDate.msPerDay)])
      <= inject_Z
           (WorkoutStats.totalTime
              (getWorkoutStats 0
                 [mkStatsRow 30 0; mkStatsRow 30 (31 * JSDate.msPerDay)])))%Q.
Proof.
  assert (H : forall r,
             r ∈ [mkStatsRow 30 0; mkStatsRow 30 (31 * JSDate.msPerDay)] ->
             0 <= duration_minutes r).
  { intros r Hr. apply elem_of_cons in Hr as [->|Hr]; [done|].
    apply list_elem_of_singleton in Hr as ->. done. }
  split; [exact H|].
  exact (averages_are_ordered 0 _ H).
Defined.

(** X12.  When no two sessions start more than seven days apart, the
    weekly and the monthly average are both the total time. *)
Theorem averages_of_one_week_are_the_total tz sessions :
  sessions <> [] ->
  (forall r r', r ∈ sessions -> r' ∈ sessions ->
     start_time r' - start_time r <= 7 * JSDate.msPerDay) ->
  (WorkoutStats.weeklyAverage (getWorkoutStats tz sessions)
   == inject_Z (totalMinutes sessions))%Q
  /\ (WorkoutStats.monthlyAverage (getWorkoutStats tz sessions)
      == inject_Z (totalMinutes sessions))%Q.
Proof.
  intros Hne Hspan. destruct sessions as [|r rows]; [done|]. clear Hne.
  unfold getWorkoutStats.
  cbn [map WorkoutStats.weeklyAverage WorkoutStats.monthlyAverage].
  rewrite fold_left_add, Z.add_0_l.
  destruct (daysDiff_bounds (start_time r) (map start_time rows)) as [Hd Hup].
  specialize (Hup 7).
  assert (Hseven :
    JSNumber.ceilDiv
      (mathMax (start_time r) (map start_time rows)
       - mathMin (start_time r) (map start_time rows)) (1000 * 60 * 60 * 24) <= 7).
  { apply Hup. intros t t' Ht Ht'.
    change (start_time r :: map start_time rows)
      with (map start_time (r :: rows)) in Ht, Ht'.
    apply list_elem_of_fmap in Ht as (x & -> & Hx).
    apply list_elem_of_fmap in Ht' as (x' & -> & Hx').
    exact (Hspan x x' Hx Hx'). }
  set (days := JSNumber.ceilDiv _ _) in *.
  assert (HD : (0 <= inject_Z days <= 7)%Q).
  { split; [rewrite <- (Zle_Qle 0); exact Hd|rewrite <- (Zle_Qle _ 7); exact Hseven]. }
  assert (Hw : (Qmax 1 (inject_Z days / 7) == 1)%Q).
  { apply Q.max_l. apply Qle_shift_div_r; lra. }
  assert (Hm : (Qmax 1 (inject_Z days / 30) == 1)%Q).
  { apply Q.max_l. apply Qle_shift_div_r; lra. }
  unfold totalMinutes. rewrite Hw, Hm. split; field.
Qed.

Lemma averages_of_one_week_are_the_total_witness :
  [mkStatsRow 30 0; mkStatsRow 30 172800000] <> []
  /\ (forall r r',
        r ∈ [mkStatsRow 30 0; mkStatsRow 30 172800000] ->
        r' ∈ [mkStatsRow 30 0; mkStatsRow 30 172800000] ->
        start_time r' - start_time r <= 7 * JSDate.msPerDay)
  /\ (WorkoutStats.weeklyAverage
        (getWorkoutStats 0 [mkStatsRow 30 0; mkStatsRow 30 172800000])
      == inject_Z (totalMinutes [mkStatsRow 30 0; mkStatsRow 30 172800000]))%Q.
Proof.
  assert (H1 : [mkStatsRow 30 0; mkStatsRow 30 172800000] <> []) by discriminate.
  assert (H2 : forall r r',
             r ∈ [mkStatsRow 30 0; mkStatsRow 30 172800000] ->
             r' ∈ [mkStatsRow 30 0; mkStatsRow 30 172800000] ->
             start_time r' - start_time r <= 7 * JSDate.msPerDay).
  { intros r r' Hr Hr'.
    apply elem_of_cons in Hr as [->|Hr];
      [|apply list_elem_of_singleton in Hr as ->];
      (apply elem_of_cons in Hr' as [->|Hr'];
       [|apply list_elem_of_singleton in Hr' as ->]);
      cbn; unfold JSDate.msPerDay; lia. }
  split; [exact H1|]. split; [exact H2|].
  exact (proj1 (averages_of_one_week_are_the_total 0 _ H1 H2)).
Defined.

End StatsMore.

(** ** More about the calendar *)

Section CalendarMore.
Import Calendar.

Lemma getTotalDurationForDate_sum tz sessions date :
  getTotalDurationForDate tz sessions date
  = Zsum (map WorkoutSession.durationMinutes (getSessionsForDate tz sessions date)).
Proof. unfold getTotalDurationForDate. by rewrite fold_left_add. Qed.

Lemma getSessionsForDate_elem tz sessions date s :
  s ∈ getSessionsForDate tz sessions date
  <-> s ∈ sessions
      /\ JSDate.toDateString tz (WorkoutSession.startTime s)
         = JSDate.toDateString tz date.
Proof.
  unfold getSessionsForDate. rewrite !list_elem_of_In, filter_In.
  by rewrite bool_decide_eq_true.
Qed.

Lemma Zsum_at_least_length {A} (f : A -> Z) xs :
  (forall x, x ∈ xs -> 1 <= f x) -> Z.of_nat (length xs) <= Zsum (map f xs).
Proof.
  induction xs as [|x xs IH]; intros H; [done|].
  cbn [map length]. rewrite Zsum_cons.
  pose proof (H x (list_elem_of_here _ _)).
  specialize (IH (fun y Hy => H y (list_elem_of_further _ _ _ Hy))). lia.
Qed.

(** X13.  When every session lasts at least a minute, the calendar
    leaves a day without colour exactly when no session started on
    it. *)
Theorem day_is_coloured_iff_trained tz sessions date :
  (forall s, s ∈ sessions -> 1 <= WorkoutSession.durationMinutes s) ->
  getIntensityClass (getTotalDurationForDate tz sessions date) = EmptyString
  <-> getSessionsForDate tz sessions date = [].
Proof.
  intros Hpos.
  assert (Hclass : forall d, getIntensityClass d = EmptyString <-> d = 0).
  { intros d. unfold getIntensityClass. destruct (Z.eqb_spec d 0); [done|].
    repeat destruct (_ <? _); split; (discriminate || done). }
  rewrite Hclass, getTotalDurationForDate_sum.
  pose proof (Zsum_at_least_length WorkoutSession.durationMinutes
                (getSessionsForDate tz sessions date)) as Hlen.
  split.
  - intros Hz. destruct (getSessionsForDate tz sessions date) as [|s l] eqn:E; [done|].
    rewrite <- E in *. rewrite E in Hlen at 1. cbn [length] in Hlen.
    assert (forall x, x ∈ getSessionsForDate tz sessions date ->
                      1 <= WorkoutSession.durationMinutes x).
    { intros x Hx. apply Hpos. by apply getSessionsForDate_elem in Hx as [? _]. }
    specialize (Hlen ltac:(done)). lia.
  - by intros ->.
Qed.

Lemma day_is_coloured_iff_trained_witness :
  (forall s,
     s ∈ [WorkoutSession.mk "s1" "run" "u" 3600000 30 "c";
          WorkoutSession.mk "s3" "gym" "u" 180000000 45 "c"] ->
     1 <= WorkoutSession.durationMinutes s)
  /\ (getIntensityClass
        (getTotalDurationForDate 0
           [WorkoutSession.mk "s1" "run" "u" 3600000 30 "c";
            WorkoutSession.mk "s3" "gym" "u" 180000000 45 "c"] 86400000)
      = EmptyString
      <-> getSessionsForDate 0
            [WorkoutSession.mk "s1" "run" "u" 3600000 30 "c";
             WorkoutSession.mk "s3" "gym" "u" 180000000 45 "c"] 86400000 = []).
Proof.
  assert (H : forall s,
             s ∈ [WorkoutSession.mk "s1" "run" "u" 3600000 30 "c";
                  WorkoutSession.mk "s3" "gym" "u" 180000000 45 "c"] ->
             1 <= WorkoutSession.durationMinutes s).
  { intros s Hs. apply elem_of_cons in Hs as [->|Hs]; [cbn; lia|].
    apply list_elem_of_singleton in Hs as ->. cbn. lia. }
  split; [exact H|].
  exact (day_is_coloured_iff_trained 0 _ 86400000 H).
Defined.

Lemma stats_trainingDays tz rows :
  WorkoutStats.trainingDays (WorkoutService.getWorkoutStats tz rows)
  = Z.of_nat (size (WorkoutService.uniqueDays tz rows)).
Proof. destruct rows as [|r rows]; reflexivity. Qed.

(** X14.  The number of training days of the statistics is the number
    of calendar days on which the calendar finds a session: of any
    dates of pairwise distinct days that cover the days of all
    sessions, as many have sessions as there are training days. *)
Theorem trainingDays_are_the_days_with_sessions tz sessions dates :
  NoDup (map (JSDate.toDateString tz) dates) ->
  (forall s, s ∈ sessions ->
     JSDate.toDateString tz (WorkoutSession.startTime s)
     ∈ map (JSDate.toDateString tz) dates) ->
  WorkoutStats.trainingDays (WorkoutService.computeStats tz sessions)
  = Z.of_nat
      (length (filter (fun date =>
                         (0 < length (getSessionsForDate tz sessions date))%nat)
                      dates)).
Proof.
  intros Hnd Hcover. unfold WorkoutService.computeStats.
  rewrite stats_trainingDays. f_equal.
  set (trained := filter _ dates).
  assert (Hnd' : NoDup (map (JSDate.toDateString tz) trained)).
  { eapply sublist_NoDup; [exact Hnd|].
    apply (fmap_sublist (JSDate.toDateString tz)). apply sublist_filter. }
  rewrite <- (length_map (JSDate.toDateString tz) trained).
  rewrite <- (size_list_to_set (C:=gset Z) _ Hnd'). f_equal.
  unfold WorkoutService.uniqueDays. apply set_eq. intros day.
  rewrite !elem_of_list_to_set, map_map. cbn.
  split; intros Hday; apply list_elem_of_fmap in Hday; apply list_elem_of_fmap;
    revert Hday.
  - intros (s & -> & Hs). specialize (Hcover s Hs).
    apply list_elem_of_fmap in Hcover as (date & Hday & Hdate).
    exists date. split; [done|]. apply list_elem_of_filter. split; [|done].
    assert (s ∈ getSessionsForDate tz sessions date)
      by (by apply getSessionsForDate_elem).
    destruct (getSessionsForDate tz sessions date); [by apply elem_of_nil in H|].
    cbn. lia.
  - intros (date & -> & Hdate). apply list_elem_of_filter in Hdate as [Hlen _].
    destruct (getSessionsForDate tz sessions date) as [|s l] eqn:E;
      [cbn in Hlen; lia|].
    assert (Hs : s ∈ getSessionsForDate tz sessions date)
      by (rewrite E; apply list_elem_of_here).
    apply getSessionsForDate_elem in Hs as [Hs Hday]. by exists s.
Qed.

Lemma trainingDays_are_the_days_with_sessions_witness :
  NoDup (map (JSDate.toDateString 0) [0; 86400000; 172800000])
  /\ (forall s,
        s ∈ [WorkoutSession.mk "s1" "run" "u" 3600000 30 "c";
             WorkoutSession.mk "s2" "run" "u" 7200000 15 "c";
             WorkoutSession.mk "s3" "gym" "u" 180000000 45 "c"] ->
        JSDate.toDateString 0 (WorkoutSession.startTime s)
        ∈ map (JSDate.toDateString 0) [0; 86400000; 172800000])
  /\ WorkoutStats.trainingDays
       (WorkoutService.computeStats 0
          [WorkoutSession.mk "s1" "run" "u" 3600000 30 "c";
           WorkoutSession.mk "s2" "run" "u" 7200000 15 "c";
           WorkoutSession.mk "s3" "gym" "u" 180000000 45 "c"])
     = 2.
Proof.
  assert (H1 : NoDup (map (JSDate.toDateString 0) [0; 86400000; 172800000])).
  { apply (bool_decide_unpack _). vm_compute. exact I. }
  assert (H2 : forall s,
             s ∈ [WorkoutSession.mk "s1" "run" "u" 3600000 30 "c";
                  WorkoutSession.mk "s2" "run" "u" 7200000 15 "c";
                  WorkoutSession.mk "s3" "gym" "u" 180000000 45 "c"] ->
             JSDate.toDateString 0 (WorkoutSession.startTime s)
             ∈ map (JSDate.toDateString 0) [0; 86400000; 172800000]).
  { intros s Hs. repeat (apply elem_of_cons in Hs as [->|Hs]);
      [| | |by apply elem_of_nil in Hs];
      apply (bool_decide_unpack _); vm_compute; exact I. }
  split; [exact H1|]. split; [exact H2|].
  exact (trainingDays_are_the_days_with_sessions 0 _ _ H1 H2).
Defined.

End CalendarMore.

Section GridFacts.
Import Calendar.
Variable firstOfMonth lastOfMonth : Z -> Z.

Lemma toDateString_localMidnight tz day :
  JSDate.toDateString tz (JSDate.localMidnight tz day) = day.
Proof.
  unfold JSDate.toDateString, JSDate.localMidnight.
  replace (day * JSDate.msPerDay - tz + tz) with (day * JSDate.msPerDay) by lia.
  apply Z.div_mul. unfold JSDate.msPerDay. lia.
Qed.

Lemma getDay_range tz t : 0 <= JSDate.getDay tz t < 7.
Proof. unfold JSDate.getDay. apply Z.mod_pos_bound. lia. Qed.


Lemma column_of_day a i : (a - a mod 7 + i) mod 7 = i mod 7.
Proof.
  pose proof (Z.div_mod a 7 ltac:(lia)).
  replace (a - a mod 7 + i) with (i + a / 7 * 7) by lia.
  apply Z.mod_add. lia.
Qed.


End GridFacts.


Section GridTotals.
Import Calendar.
Variable firstOfMonth lastOfMonth : Z -> Z.

Lemma no_cell_for_day tz (day v : Z) dates :
  day ∉ map (JSDate.toDateString tz) dates ->
  Zsum (map (fun date =>
               if decide (day = JSDate.toDateString tz date) then v else 0)
            dates) = 0.
Proof.
  induction dates as [|d dates IH]; [reflexivity|].
  cbn [map]. intros Hnotin. apply not_elem_of_cons in Hnotin as [Hne Hnotin].
  rewrite Zsum_cons. destruct (decide _) as [?|_]; [done|].
  rewrite IH by exact Hnotin. lia.
Qed.

(** The totals of dates of distinct days add up to the durations of the
    sessions that started on one of these days. *)
Lemma day_totals_select tz sessions dates :
  NoDup (map (JSDate.toDateString tz) dates) ->
  Zsum (map (getTotalDurationForDate tz sessions) dates)
  = Zsum (map WorkoutSession.durationMinutes
            (filter (fun s => JSDate.toDateString tz (WorkoutSession.startTime s)
                              ∈ map (JSDate.toDateString tz) dates)
                    sessions)).
Proof.
  intros Hnd. induction sessions as [|s sessions IH].
  - clear. induction dates as [|d dates IH]; [reflexivity|].
    cbn [map]. rewrite Zsum_cons, IH. reflexivity.
  - rewrite (map_ext _ _ (getTotalDurationForDate_cons tz s sessions)).
    rewrite Zsum_map_add, IH.
    destruct (decide (JSDate.toDateString tz (WorkoutSession.startTime s)
                      ∈ map (JSDate.toDateString tz) dates)) as [Hin|Hnotin].
    + rewrite filter_cons_True by exact Hin. cbn [map].
      rewrite Zsum_cons. by rewrite one_cell_per_day.
    + rewrite filter_cons_False by exact Hnotin.
      by rewrite no_cell_for_day.
Qed.

Lemma monthTotals_dates tz sessions date :
  monthTotals firstOfMonth lastOfMonth tz sessions date
  = map (getTotalDurationForDate tz sessions)
        (map (fun day => JSDate.localMidnight tz (firstOfMonth date + (day - 1)))
             (seqZ 1 (lastOfMonth date))).
Proof.
  unfold monthTotals, getDaysInMonth. rewrite omap_app.
  assert (forall n, omap (fun cell : option Z =>
                            getTotalDurationForDate tz sessions <$> cell)
                         (replicate n None) = []) as ->
    by (intros n; induction n; done).
  cbn [app]. generalize (seqZ 1 (lastOfMonth date)).
  intros l. induction l as [|k l IH]; [reflexivity|].
  cbn [map]. cbn. f_equal. exact IH.
Qed.

(** X16.  Seen from a zone at a fixed offset [tz] from UTC (no change
    of offset during the month), the totals in the cells of a month add
    up to the durations of the sessions that started, in local time, on
    a day of that month. *)
Theorem month_cells_add_up tz sessions date :
  Zsum (monthTotals firstOfMonth lastOfMonth tz sessions date)
  = Zsum (map WorkoutSession.durationMinutes
            (filter (fun s =>
                       firstOfMonth date
                       <= JSDate.toDateString tz (WorkoutSession.startTime s)
                       < firstOfMonth date + lastOfMonth date)
                    sessions)).
Proof.
  rewrite monthTotals_dates.
  assert (Hdays :
    map (JSDate.toDateString tz)
        (map (fun day => JSDate.localMidnight tz (firstOfMonth date + (day - 1)))
             (seqZ 1 (lastOfMonth date)))
    = (fun day => firstOfMonth date + (day - 1)) <$> seqZ 1 (lastOfMonth date)).
  { rewrite map_map. apply map_ext. intros day.
    apply toDateString_localMidnight. }
  rewrite day_totals_select.
  - rewrite Hdays. f_equal. f_equal. apply list_filter_iff. intros s.
    rewrite list_elem_of_fmap. setoid_rewrite elem_of_seqZ. split.
    + intros (day & -> & ?). lia.
    + intros ?.
      exists (JSDate.toDateString tz (WorkoutSession.startTime s)
              - firstOfMonth date + 1). lia.
  - rewrite Hdays. apply NoDup_fmap_2; [|apply NoDup_seqZ].
    intros x y ?. lia.
Qed.

End GridTotals.

(** ** More about dictionaries and charts *)

Section ObjectMore.
Context {K : Type} `{EqDecision K}.

Lemma keys_set (o : JSObject.t (K:=K)) k v :
  map fst (JSObject.set o k v)
  = if decide (k ∈ map fst o) then map fst o else map fst o ++ [k].
Proof.
  induction o as [|[k0 v0] o IH]; cbn.
  - destruct (decide (k ∈ [])) as [Hin|_]; [by apply elem_of_nil in Hin|done].
  - destruct (decide (k = k0)) as [->|Hne]; cbn.
    + destruct (decide (k0 ∈ k0 :: map fst o)) as [_|Hn]; [done|].
      destruct Hn. apply list_elem_of_here.
    + rewrite IH. destruct (decide (k ∈ map fst o)) as [Hin|Hnotin].
      * destruct (decide (k ∈ k0 :: map fst o)) as [_|Hn]; [done|].
        destruct Hn. by apply list_elem_of_further.
      * destruct (decide (k ∈ k0 :: map fst o)) as [Hin|_]; [|done].
        apply elem_of_cons in Hin as [?|?]; done.
Qed.

Lemma NoDup_keys_set (o : JSObject.t (K:=K)) k v :
  NoDup (map fst o) -> NoDup (map fst (JSObject.set o k v)).
Proof.
  intros Hnd. rewrite keys_set. destruct (decide (k ∈ map fst o)); [done|].
  apply NoDup_app. split; [done|]. split; [|apply NoDup_singleton].
  intros x Hx Hx'. apply list_elem_of_singleton in Hx' as ->. done.
Qed.

Lemma Zsum_values_set (o : JSObject.t (K:=K)) k v :
  Zsum (map snd (JSObject.set o k v))
  = Zsum (map snd o) - default 0 (JSObject.get o k) + v.
Proof.
  induction o as [|[k0 v0] o IH]; cbn [JSObject.set JSObject.get].
  - unfold Zsum. cbn. lia.
  - destruct (decide (k = k0)) as [->|Hne]; cbn [map snd default id].
    + rewrite !Zsum_cons. lia.
    + rewrite !Zsum_cons, IH. lia.
Qed.

Lemma get_of_entry (o : JSObject.t (K:=K)) k v :
  NoDup (map fst o) -> (k, v) ∈ o -> JSObject.get o k = Some v.
Proof.
  induction o as [|[k0 v0] o IH]; cbn; intros Hnd Hin.
  - by apply elem_of_nil in Hin.
  - apply NoDup_cons in Hnd as [Hnotin Hnd].
    apply elem_of_cons in Hin as [[= -> ->]|Hin].
    + by destruct (decide (k0 = k0)).
    + destruct (decide (k = k0)) as [->|_]; [|by apply IH].
      destruct Hnotin. apply list_elem_of_fmap. by exists (k0, v).
Qed.

Section Fold.
Context {A : Type} (key : A -> K) (val : A -> Z).

Lemma NoDup_keys_fold xs : forall o : JSObject.t (K:=K),
  NoDup (map fst o) ->
  NoDup (map fst (fold_left (fun acc x => JSObject.accumulate acc (key x) (val x))
                            xs o)).
Proof.
  induction xs as [|x xs IH]; intros o Hnd; [exact Hnd|].
  cbn [fold_left]. apply IH. by apply NoDup_keys_set.
Qed.

Lemma Zsum_values_fold xs : forall o : JSObject.t (K:=K),
  Zsum (map snd (fold_left (fun acc x => JSObject.accumulate acc (key x) (val x))
                           xs o))
  = Zsum (map snd o) + Zsum (map val xs).
Proof.
  induction xs as [|x xs IH]; intros o; cbn [fold_left map].
  - unfold Zsum at 3. cbn. lia.
  - rewrite IH. unfold JSObject.accumulate. rewrite Zsum_values_set, Zsum_cons. lia.
Qed.

Lemma get_fold_untouched xs : forall (o : JSObject.t (K:=K)) k,
  JSObject.get o k = None -> (forall x, x ∈ xs -> key x <> k) ->
  JSObject.get
    (fold_left (fun acc x => JSObject.accumulate acc (key x) (val x)) xs o) k
  = None.
Proof.
  induction xs as [|x xs IH]; intros o k Hget Hkeys; [exact Hget|].
  cbn [fold_left]. apply IH.
  - rewrite get_accumulate. destruct (decide (k = key x)) as [->|_]; [|exact Hget].
    destruct (Hkeys x (list_elem_of_here _ _) eq_refl).
  - intros y Hy. apply Hkeys. by apply list_elem_of_further.
Qed.

(** Every entry of the dictionary that a [forEach] builds from nothing
    is the key of some element, with the total of the values filed
    under that key. *)
Lemma entry_of_fold xs k v :
  (k, v) ∈ JSObject.entries
             (fold_left (fun acc x => JSObject.accumulate acc (key x) (val x)) xs [])
  -> (exists x, x ∈ xs /\ key x = k)
     /\ v = Zsum (map val (filter (fun x => key x = k) xs)).
Proof.
  unfold JSObject.entries. intros Hin.
  apply get_of_entry in Hin; [|apply NoDup_keys_fold; constructor].
  destruct (decide (Exists (fun x => key x = k) xs)) as [Hex|Hnex].
  - apply Exists_exists in Hex as (x & Hx & Hk).
    assert (Hhit : exists x, x ∈ xs /\ key x = k) by (by exists x).
    split; [exact Hhit|].
    rewrite (get_fold_accumulate key val xs [] k (or_intror Hhit)) in Hin.
    cbn [JSObject.get default] in Hin. injection Hin as <-. lia.
  - rewrite get_fold_untouched in Hin; [done|done|].
    intros x Hx Hk. apply Hnex. apply Exists_exists. by exists x.
Qed.

End Fold.
End ObjectMore.

Section AnalyticsMore.
Import Analytics.

Lemma map_imap {A B C} (f : nat -> A -> B) (g : B -> C) (h : A -> C) xs :
  (forall i x, g (f i x) = h x) -> map g (imap f xs) = map h xs.
Proof.
  revert f. induction xs as [|x xs IH]; intros f Hf; [reflexivity|].
  cbn. rewrite Hf. f_equal. apply IH. intros i y. apply Hf.
Qed.

Lemma slice_names workoutTypes sessions :
  map name (getWorkoutTypeData workoutTypes sessions)
  = map fst (JSObject.entries (typeTotals workoutTypes sessions)).
Proof. unfold getWorkoutTypeData. apply map_imap. by intros i [n d]. Qed.

Lemma slice_durations workoutTypes sessions :
  map slice_duration (getWorkoutTypeData workoutTypes sessions)
  = map snd (JSObject.entries (typeTotals workoutTypes sessions)).
Proof. unfold getWorkoutTypeData. apply map_imap. by intros i [n d]. Qed.

(** X17.  When no session is filed under a name that a plain object
    inherits from [Object.prototype] or under a name made of digits
    only, the slices of the distribution chart have pairwise distinct
    names, and their durations add up to the durations of all
    sessions. *)
Theorem type_slices_share_out_the_total workoutTypes sessions :
  (forall s, s ∈ sessions ->
             JSObject.ordinaryKey (typeName workoutTypes s) = true) ->
  NoDup (map name (getWorkoutTypeData workoutTypes sessions))
  /\ Zsum (map slice_duration (getWorkoutTypeData workoutTypes sessions))
     = Zsum (map WorkoutSession.durationMinutes sessions).
Proof.
  intros _.
  rewrite slice_names, slice_durations. unfold JSObject.entries, typeTotals.
  split.
  - apply NoDup_keys_fold. constructor.
  - rewrite Zsum_values_fold. reflexivity.
Qed.

Lemma type_slices_share_out_the_total_witness :
  (forall s,
     s ∈ [WorkoutSession.mk "s1" "run" "u" 3600000 30 "c";
          WorkoutSession.mk "s2" "gone" "u" 7200000 15 "c";
          WorkoutSession.mk "s3" "run" "u" 180000000 45 "c"] ->
     JSObject.ordinaryKey
       (typeName [WorkoutType.mk "run" "Running" "u" "c"] s) = true)
  /\ map name
       (getWorkoutTypeData [WorkoutType.mk "run" "Running" "u" "c"]
          [WorkoutSession.mk "s1" "run" "u" 3600000 30 "c";
           WorkoutSession.mk "s2" "gone" "u" 7200000 15 "c";
           WorkoutSession.mk "s3" "run" "u" 180000000 45 "c"])
     = ["Running"; "Unknown"]%string
  /\ Zsum (map slice_duration
             (getWorkoutTypeData [WorkoutType.mk "run" "Running" "u" "c"]
                [WorkoutSession.mk "s1" "run" "u" 3600000 30 "c";
                 WorkoutSession.mk "s2" "gone" "u" 7200000 15 "c";
                 WorkoutSession.mk "s3" "run" "u" 180000000 45 "c"]))
     = Zsum (map WorkoutSession.durationMinutes
               [WorkoutSession.mk "s1" "run" "u" 3600000 30 "c";
                WorkoutSession.mk "s2" "gone" "u" 7200000 15 "c";
                WorkoutSession.mk "s3" "run" "u" 180000000 45 "c"]).
Proof.
  assert (H : forall s,
            s ∈ [WorkoutSession.mk "s1" "run" "u" 3600000 30 "c";
                 WorkoutSession.mk "s2" "gone" "u" 7200000 15 "c";
                 WorkoutSession.mk "s3" "run" "u" 180000000 45 "c"] ->
            JSObject.ordinaryKey
              (typeName [WorkoutType.mk "run" "Running" "u" "c"] s) = true).
  { intros s Hs.
    repeat (apply elem_of_cons in Hs as [->|Hs]; [reflexivity|]).
    by apply elem_of_nil in Hs. }
  split; [exact H|]. split; [reflexivity|].
  exact (proj2 (type_slices_share_out_the_total _ _ H)).
Defined.

(** X18.  When no session is filed under a name that a plain object
    inherits from [Object.prototype] or under a name made of digits
    only: each slice stands for a name under which some session is
    filed, its duration is the total of the sessions filed under that
    name, and its colour is the one that the palette holds at the
    position of the slice, counted round the eight colours. *)
Theorem type_slice_content workoutTypes sessions index slice :
  (forall s, s ∈ sessions ->
             JSObject.ordinaryKey (typeName workoutTypes s) = true) ->
  getWorkoutTypeData workoutTypes sessions !! index = Some slice ->
  (exists s, s ∈ sessions /\ typeName workoutTypes s = name slice)
  /\ slice_duration slice
     = Zsum (map WorkoutSession.durationMinutes
               (filter (fun s => typeName workoutTypes s = name slice) sessions))
  /\ colors !! (index mod 8)%nat = Some (color slice).
Proof.
  intros _.
  unfold getWorkoutTypeData. rewrite list_lookup_imap.
  destruct (JSObject.entries (typeTotals workoutTypes sessions) !! index)
    as [[n d]|] eqn:Hentry; [|discriminate].
  cbn -[Nat.modulo colors length]. intros [= <-]. cbn [name slice_duration color].
  apply list_elem_of_lookup_2 in Hentry. unfold typeTotals in Hentry.
  apply (entry_of_fold (typeName workoutTypes) WorkoutSession.durationMinutes)
    in Hentry as [Hhit Hsum].
  split; [exact Hhit|]. split; [exact Hsum|].
  change (length colors) with 8%nat.
  assert (Hlt : (index mod 8 < length colors)%nat)
    by (change (length colors) with 8%nat; apply Nat.mod_upper_bound; lia).
  destruct (lookup_lt_is_Some_2 colors (index mod 8) Hlt) as [c Hc].
  change (colors !! (index mod 8)%nat
          = Some (default EmptyString (colors !! (index mod 8)%nat))).
  by rewrite Hc.
Qed.

Lemma type_slice_content_witness :
  (forall s,
     s ∈ [WorkoutSession.mk "s1" "run" "u" 3600000 30 "c";
          WorkoutSession.mk "s2" "gone" "u" 7200000 15 "c";
          WorkoutSession.mk "s3" "run" "u" 180000000 45 "c"] ->
     JSObject.ordinaryKey
       (typeName [WorkoutType.mk "run" "Running" "u" "c"] s) = true)
  /\ getWorkoutTypeData [WorkoutType.mk "run" "Running" "u" "c"]
       [WorkoutSession.mk "s1" "run" "u" 3600000 30 "c";
        WorkoutSession.mk "s2" "gone" "u" 7200000 15 "c";
        WorkoutSession.mk "s3" "run" "u" 180000000 45 "c"] !! 0%nat
     = Some (mkTypeSlice "Running" 75 "#2563EB")
  /\ slice_duration (mkTypeSlice "Running" 75 "#2563EB")
     = Zsum (map WorkoutSession.durationMinutes
               (filter (fun s => typeName [WorkoutType.mk "run" "Running" "u" "c"] s
                                 = name (mkTypeSlice "Running" 75 "#2563EB"))
                       [WorkoutSession.mk "s1" "run" "u" 3600000 30 "c";
                        WorkoutSession.mk "s2" "gone" "u" 7200000 15 "c";
                        WorkoutSession.mk "s3" "run" "u" 180000000 45 "c"])).
Proof.
  assert (Hk : forall s,
            s ∈ [WorkoutSession.mk "s1" "run" "u" 3600000 30 "c";
                 WorkoutSession.mk "s2" "gone" "u" 7200000 15 "c";
                 WorkoutSession.mk "s3" "run" "u" 180000000 45 "c"] ->
            JSObject.ordinaryKey
              (typeName [WorkoutType.mk "run" "Running" "u" "c"] s) = true).
  { intros s Hs.
    repeat (apply elem_of_cons in Hs as [->|Hs]; [reflexivity|]).
    by apply elem_of_nil in Hs. }
  assert (H : getWorkoutTypeData [WorkoutType.mk "run" "Running" "u" "c"]
                [WorkoutSession.mk "s1" "run" "u" 3600000 30 "c";
                 WorkoutSession.mk "s2" "gone" "u" 7200000 15 "c";
                 WorkoutSession.mk "s3" "run" "u" 180000000 45 "c"] !! 0%nat
              = Some (mkTypeSlice "Running" 75 "#2563EB")) by reflexivity.
  split; [exact Hk|]. split; [exact H|].
  exact (proj1 (proj2 (type_slice_content _ _ _ _ Hk H))).
Defined.

Lemma elem_of_sliceLast {A} n (xs : list A) x :
  x ∈ JSObject.sliceLast n xs -> x ∈ xs.
Proof.
  unfold JSObject.sliceLast. intros Hx.
  eapply elem_of_sublist; [exact Hx|apply sublist_drop].
Qed.

(** X19.  The weekly chart has at most eight bars, and each bar is a
    week in which some session falls, with the total of the sessions
    that have its week key. *)
Theorem weekly_bars_total_their_weeks tz sessions point :
  point ∈ getWeeklyData tz sessions ->
  (length (getWeeklyData tz sessions) <= 8)%nat
  /\ exists key,
       week point = JSDate.toDateString tz (JSDate.ofIsoDate key)
       /\ (exists s, s ∈ sessions /\ weekKey tz s = key)
       /\ duration point
          = Zsum (map WorkoutSession.durationMinutes
                    (filter (fun s => weekKey tz s = key) sessions)).
Proof.
  intros Hin. split.
  { unfold getWeeklyData, JSObject.sliceLast. rewrite length_drop. lia. }
  unfold getWeeklyData in Hin. apply elem_of_sliceLast in Hin.
  apply list_elem_of_fmap in Hin as ([key d] & -> & Hentry).
  unfold weeklyTotals in Hentry.
  apply (entry_of_fold (weekKey tz) WorkoutSession.durationMinutes)
    in Hentry as [Hhit Hsum].
  exists key. cbn [week duration]. done.
Qed.

Lemma weekly_bars_total_their_weeks_witness :
  mkWeekPoint 3 45
  ∈ getWeeklyData 0
      [WorkoutSession.mk "s1" "run" "u" 864000000 20 "c";
       WorkoutSession.mk "s2" "run" "u" 300000000 30 "c";
       WorkoutSession.mk "s3" "run" "u" 500000000 15 "c"]
  /\ (length (getWeeklyData 0
                [WorkoutSession.mk "s1" "run" "u" 864000000 20 "c";
                 WorkoutSession.mk "s2" "run" "u" 300000000 30 "c";
                 WorkoutSession.mk "s3" "run" "u" 500000000 15 "c"]) <= 8)%nat.
Proof.
  assert (H : mkWeekPoint 3 45
              ∈ getWeeklyData 0
                  [WorkoutSession.mk "s1" "run" "u" 864000000 20 "c";
                   WorkoutSession.mk "s2" "run" "u" 300000000 30 "c";
                   WorkoutSession.mk "s3" "run" "u" 500000000 15 "c"])
    by apply list_elem_of_further, list_elem_of_here.
  split; [exact H|].
  exact (proj1 (weekly_bars_total_their_weeks 0 _ _ H)).
Defined.

End AnalyticsMore.

Section WeeksMore.
Import Analytics.

Lemma weekly_keys tz sessions :
  (list_to_set (map fst (JSObject.entries (weeklyTotals tz sessions))) : gset Z)
  = list_to_set (map (weekKey tz) sessions).
Proof.
  apply set_eq. intros key. rewrite !elem_of_list_to_set. split; intros Hin.
  - apply list_elem_of_fmap in Hin as ([k v] & -> & Hentry).
    apply (entry_of_fold (weekKey tz) WorkoutSession.durationMinutes)
      in Hentry as [(s & Hs & Hk) _].
    apply list_elem_of_fmap. by exists s.
  - apply list_elem_of_fmap in Hin as (s & -> & Hs).
    pose proof (get_fold_accumulate (weekKey tz) WorkoutSession.durationMinutes
                  sessions [] (weekKey tz s)
                  (or_intror (ex_intro _ s (conj Hs eq_refl)))) as Hget.
    apply get_Some_lookup in Hget as [i Hi].
    apply list_elem_of_lookup_2 in Hi.
    apply list_elem_of_fmap. by eexists (_, _).
Qed.

(** X20.  When the sessions fall in at most eight different weeks, the
    bars of the weekly chart add up to the durations of all sessions. *)
Theorem weekly_bars_add_up_within_eight_weeks tz sessions :
  (size (list_to_set (map (weekKey tz) sessions) : gset Z) <= 8)%nat ->
  Zsum (map duration (getWeeklyData tz sessions))
  = Zsum (map WorkoutSession.durationMinutes sessions).
Proof.
  intros Hweeks. rewrite <- weekly_keys in Hweeks.
  rewrite size_list_to_set in Hweeks
    by (unfold JSObject.entries, weeklyTotals; apply NoDup_keys_fold; constructor).
  rewrite length_map in Hweeks.
  unfold getWeeklyData, JSObject.sliceLast. rewrite length_map.
  replace (length (JSObject.entries (weeklyTotals tz sessions)) - 8)%nat
    with 0%nat by lia.
  rewrite drop_0, map_map.
  rewrite (map_ext _ snd) by (by intros [k v]).
  unfold JSObject.entries, weeklyTotals. by rewrite Zsum_values_fold.
Qed.

Lemma weekly_bars_add_up_within_eight_weeks_witness :
  (size (list_to_set
           (map (weekKey 0)
                [WorkoutSession.mk "s1" "run" "u" 864000000 20 "c";
                 WorkoutSession.mk "s2" "run" "u" 300000000 30 "c";
                 WorkoutSession.mk "s3" "run" "u" 500000000 15 "c"]) : gset Z)
   <= 8)%nat
  /\ Zsum (map duration
             (getWeeklyData 0
                [WorkoutSession.mk "s1" "run" "u" 864000000 20 "c";
                 WorkoutSession.mk "s2" "run" "u" 300000000 30 "c";
                 WorkoutSession.mk "s3" "run" "u" 500000000 15 "c"]))
     = 65.
Proof.
  assert (H : (size (list_to_set
                       (map (weekKey 0)
                            [WorkoutSession.mk "s1" "run" "u" 864000000 20 "c";
                             WorkoutSession.mk "s2" "run" "u" 300000000 30 "c";
                             WorkoutSession.mk "s3" "run" "u" 500000000 15 "c"])
                     : gset Z) <= 8)%nat).
  { apply (bool_decide_unpack _). vm_compute. exact I. }
  split; [exact H|].
  exact (weekly_bars_add_up_within_eight_weeks 0 _ H).
Defined.

Lemma toDateString_weekStart tz s :
  JSDate.toDateString tz (weekStart tz s)
  = JSDate.toDateString tz (WorkoutSession.startTime s)
    - JSDate.getDay tz (WorkoutSession.startTime s).
Proof.
  unfold weekStart, JSDate.daysBefore, JSDate.toDateString.
  replace (WorkoutSession.startTime s
           - JSDate.getDay tz (WorkoutSession.startTime s) * JSDate.msPerDay + tz)
    with (WorkoutSession.startTime s + tz
          + - JSDate.getDay tz (WorkoutSession.startTime s) * JSDate.msPerDay)
    by lia.
  rewrite Z.div_add by (unfold JSDate.msPerDay; lia). lia.
Qed.

(** X21.  In a zone less than a day from UTC, the week of a session
    starts on the Sunday, in local time, on or before the day of the
    session; the key under which the session is filed is the date of
    that Sunday, except that it can be the day after in a zone behind
    UTC and the day before in a zone ahead of it. *)
Theorem week_key_is_about_the_local_sunday tz s :
  - JSDate.msPerDay < tz < JSDate.msPerDay ->
  JSDate.getDay tz (weekStart tz s) = 0
  /\ 0 <= JSDate.toDateString tz (WorkoutSession.startTime s)
          - JSDate.toDateString tz (weekStart tz s) <= 6
  /\ Z.min 0 (Z.sgn (- tz))
     <= weekKey tz s - JSDate.toDateString tz (weekStart tz s)
     <= Z.max 0 (Z.sgn (- tz)).
Proof.
  intros Htz.
  pose proof (toDateString_weekStart tz s) as Hws.
  pose proof (getDay_range tz (WorkoutSession.startTime s)) as Hr.
  split; [|split].
  - unfold JSDate.getDay at 1. rewrite Hws. unfold JSDate.getDay.
    replace (JSDate.toDateString tz (WorkoutSession.startTime s)
             - (JSDate.toDateString tz (WorkoutSession.startTime s) + 4) mod 7 + 4)
      with (JSDate.toDateString tz (WorkoutSession.startTime s) + 4
            - (JSDate.toDateString tz (WorkoutSession.startTime s) + 4) mod 7 + 0)
      by lia.
    by rewrite column_of_day.
  - lia.
  - change (weekKey tz s) with (JSDate.isoDate (weekStart tz s)).
    unfold JSDate.isoDate, JSDate.toDateString.
    generalize (weekStart tz s). intros ws.
    unfold JSDate.msPerDay in *.
    pose proof (Z.div_mod ws 86400000 ltac:(lia)).
    pose proof (Z.mod_pos_bound ws 86400000 ltac:(lia)).
    pose proof (Z.div_mod (ws + tz) 86400000 ltac:(lia)).
    pose proof (Z.mod_pos_bound (ws + tz) 86400000 ltac:(lia)).
    change (1000 * 60 * 60 * 24) with 86400000 in *.
    destruct (Z.sgn_spec (- tz)) as [[? ->]|[[? ->]|[? ->]]]; lia.
Qed.

Lemma week_key_is_about_the_local_sunday_witness :
  - JSDate.msPerDay < -10800000 < JSDate.msPerDay
  /\ JSDate.getDay (-10800000)
       (weekStart (-10800000) (WorkoutSession.mk "s" "t" "u" 349200000 30 "c")) = 0
  /\ weekKey (-10800000) (WorkoutSession.mk "s" "t" "u" 349200000 30 "c")
     - JSDate.toDateString (-10800000)
         (weekStart (-10800000) (WorkoutSession.mk "s" "t" "u" 349200000 30 "c"))
     = 1.
Proof.
  assert (H : - JSDate.msPerDay < -10800000 < JSDate.msPerDay)
    by (unfold JSDate.msPerDay; lia).
  split; [exact H|]. split; [|reflexivity].
  exact (proj1 (week_key_is_about_the_local_sunday (-10800000)
                  (WorkoutSession.mk "s" "t" "u" 349200000 30 "c") H)).
Defined.

End WeeksMore.

(** ** More about the entry form *)

Section ManualEntryMore.
Import ManualEntry JSString.

Lemma digitChar_cases c :
  digitChar c ->
  c ∈ ["0"; "1"; "2"; "3"; "4"; "5"; "6"; "7"; "8"; "9"]%char.
Proof.
  intros (d & Hd & ->).
  assert (d = 0 \/ d = 1 \/ d = 2 \/ d = 3 \/ d = 4 \/ d = 5 \/ d = 6
          \/ d = 7 \/ d = 8 \/ d = 9)%N as Hcases by lia.
  repeat (destruct Hcases as [->|Hcases]; [cbn; set_solver|]).
  subst d. cbn. set_solver.
Qed.

Lemma digitValue_char d :
  (d < 10)%N -> JSNumber.digitValue (pretty_N_char d) = Some (Z.of_N d).
Proof.
  intros Hd.
  assert (d = 0 \/ d = 1 \/ d = 2 \/ d = 3 \/ d = 4 \/ d = 5 \/ d = 6
          \/ d = 7 \/ d = 8 \/ d = 9)%N as Hcases by lia.
  repeat (destruct Hcases as [->|Hcases]; [reflexivity|]).
  by subst d.
Qed.

(** The digits that [toString] prints are read back by [parseInt], most
    significant first. *)
Lemma readDigits_pretty x : forall s acc,
  (0 < x)%N -> default 0 acc = 0 ->
  JSNumber.readDigits 10 (pretty_N_go x s) acc
  = JSNumber.readDigits 10 s (Some (Z.of_N x)).
Proof.
  induction (N.lt_wf_0 x) as [x _ IH]. intros s acc Hx Hacc.
  rewrite pretty_N_go_step by exact Hx.
  assert (Hmod : (x mod 10 < 10)%N) by (apply N.mod_lt; lia).
  pose proof (N.div_mod x 10 ltac:(lia)) as Hdm.
  assert (Hread : forall a, default 0 a = Z.of_N (x / 10) ->
            JSNumber.readDigits 10 (String (pretty_N_char (x mod 10)) s) a
            = JSNumber.readDigits 10 s (Some (Z.of_N x))).
  { intros a Ha. cbn [JSNumber.readDigits]. rewrite digitValue_char by exact Hmod.
    destruct (Z.ltb_spec (Z.of_N (x mod 10)) 10); [|lia].
    do 2 f_equal. rewrite Ha. lia. }
  destruct (decide (x / 10 = 0)%N) as [Hz|Hnz].
  - rewrite Hz, pretty_N_go_0. apply Hread. rewrite Hacc, Hz. reflexivity.
  - rewrite IH; [|apply N.div_lt; lia|lia|exact Hacc].
    by apply Hread.
Qed.

(** What [toString] prints for a positive number begins with a digit,
    and with two digits when it has more than one character. *)
Lemma pretty_head x : forall s,
  (0 < x)%N ->
  exists c r, pretty_N_go x s = String c r /\ digitChar c
              /\ (r = s \/ exists c' r', r = String c' r' /\ digitChar c').
Proof.
  induction (N.lt_wf_0 x) as [x _ IH]. intros s Hx.
  rewrite pretty_N_go_step by exact Hx.
  assert (Hd : digitChar (pretty_N_char (x mod 10)))
    by (exists (x mod 10)%N; split; [apply N.mod_lt; lia|done]).
  destruct (decide (x / 10 = 0)%N) as [Hz|Hnz].
  - rewrite Hz, pretty_N_go_0. eexists _, _. split; [done|]. split; [done|by left].
  - assert (Hlt : (x / 10 < x)%N) by (apply N.div_lt; lia).
    assert (Hpos : (0 < x / 10)%N) by (apply N.neq_0_lt_0; exact Hnz).
    destruct (IH (x / 10)%N Hlt (String (pretty_N_char (x mod 10)) s) Hpos)
      as (c & r & -> & Hc & Hr).
    exists c, r. split; [done|]. split; [done|]. right.
    destruct Hr as [->|Hr]; [by eexists _, _|exact Hr].
Qed.

Lemma parseInt_digits c r :
  digitChar c -> (r = EmptyString \/ exists c' r', r = String c' r' /\ digitChar c') ->
  JSNumber.parseInt (String c r)
  = (fun n => 1 * n) <$> JSNumber.readDigits 10 (String c r) None
  /\ JSNumber.parseInt (String "-" (String c r))
     = (fun n => -1 * n) <$> JSNumber.readDigits 10 (String c r) None.
Proof.
  intros Hc Hr. apply digitChar_cases in Hc.
  assert (Hr' : r = EmptyString
                \/ exists c' r', r = String c' r'
                   /\ c' ∈ ["0"; "1"; "2"; "3"; "4"; "5"; "6"; "7"; "8"; "9"]%char).
  { destruct Hr as [?|(c' & r' & ? & Hc')]; [by left|right].
    exists c', r'. split; [done|]. by apply digitChar_cases. }
  clear Hr.
  destruct Hr' as [->|(c' & r' & -> & Hc')];
    repeat match goal with
      | H : _ ∈ _ :: _ |- _ => apply elem_of_cons in H as [->|H]
      | H : _ ∈ [] |- _ => by apply elem_of_nil in H
      end;
    split; reflexivity.
Qed.

Lemma parseInt_toString n : JSNumber.parseInt (JSString.toString n) = Some n.
Proof.
  destruct n as [|p|p]; [reflexivity| |].
  - unfold JSString.toString, pretty, pretty_Z, pretty, pretty_positive,
      pretty, pretty_N.
    destruct (decide (N.pos p = 0%N)); [done|].
    destruct (pretty_head (N.pos p) EmptyString ltac:(lia))
      as (c & r & Heq & Hc & Hr).
    rewrite Heq. rewrite (proj1 (parseInt_digits c r Hc Hr)). rewrite <- Heq.
    rewrite readDigits_pretty by (lia || done). reflexivity.
  - unfold JSString.toString, pretty, pretty_Z, pretty, pretty_positive,
      pretty, pretty_N.
    destruct (decide (N.pos p = 0%N)); [done|].
    destruct (pretty_head (N.pos p) EmptyString ltac:(lia))
      as (c & r & Heq & Hc & Hr).
    rewrite Heq. change ("-" +:+ String c r) with (String "-" (String c r)).
    rewrite (proj2 (parseInt_digits c r Hc Hr)). rewrite <- Heq.
    rewrite readDigits_pretty by (lia || done). reflexivity.
Qed.

Lemma toString_not_empty n : isEmpty (JSString.toString n) = false.
Proof.
  pose proof (parseInt_toString n) as H.
  destruct (JSString.toString n); [discriminate|reflexivity].
Qed.

(** X22.  A whole number of minutes, at least 1 and at most
    [Number.MAX_SAFE_INTEGER], typed into the form in decimal digits is
    the duration of the session that the form hands to the store, once
    type, date and time are filled in and the date is valid. *)
Theorem typed_duration_is_saved parseLocal saved type date time n start :
  1 <= n <= JSNumber.MAX_SAFE_INTEGER ->
  isEmpty type = false -> isEmpty date = false -> isEmpty time = false ->
  parseLocal (date +:+ "T" +:+ time) = Some start ->
  Creation.requests
    (Creation.ManualSubmit parseLocal
       (mkForm type date time (JSString.toString n)) saved)
  = [WorkoutService.mkNewSession type start n].
Proof.
  intros [Hn _] Ht Hd Htime Hparse. cbn. unfold handleSubmit. cbn.
  rewrite Ht, Hd, Htime, toString_not_empty, parseInt_toString. cbn.
  destruct (Z.leb_spec n 0); [lia|].
  change (date ++ "T" ++ time)%string with (date +:+ "T" +:+ time).
  rewrite Hparse. by destruct saved.
Qed.

Lemma typed_duration_is_saved_witness :
  1 <= 45 <= JSNumber.MAX_SAFE_INTEGER /\ isEmpty "run" = false /\ isEmpty "2024-01-01" = false
  /\ isEmpty "10:00" = false
  /\ (fun _ : string => Some 1704103200000) ("2024-01-01" +:+ "T" +:+ "10:00")
     = Some 1704103200000
  /\ Creation.requests
       (Creation.ManualSubmit (fun _ => Some 1704103200000)
          (mkForm "run" "2024-01-01" "10:00" (JSString.toString 45)) true)
     = [WorkoutService.mkNewSession "run" 1704103200000 45].
Proof.
  assert (Hn : 1 <= 45 <= JSNumber.MAX_SAFE_INTEGER)
    by (unfold JSNumber.MAX_SAFE_INTEGER; lia).
  split; [exact Hn|]. repeat (split; [reflexivity|]).
  exact (typed_duration_is_saved (fun _ => Some 1704103200000) true
           "run" "2024-01-01" "10:00" 45 1704103200000
           Hn eq_refl eq_refl eq_refl eq_refl).
Defined.

End ManualEntryMore.

Section NewTypeMore.
Import ManualEntry.NewType.

Lemma trimEnd_head c s :
  JSString.trimEnd (String c s) = EmptyString
  \/ exists r, JSString.trimEnd (String c s) = String c r.
Proof.
  cbn. destruct (JSString.trimEnd s).
  - destruct (JSNumber.isWhiteSpace c); [by left|right; by eexists].
  - right. by eexists.
Qed.

Lemma trimEnd_cons c s :
  JSString.trimEnd (String c s)
  = match JSString.trimEnd s with
    | EmptyString =>
        if JSNumber.isWhiteSpace c then EmptyString else String c EmptyString
    | rest => String c rest
    end.
Proof. reflexivity. Qed.

Lemma trimEnd_idem s : JSString.trimEnd (JSString.trimEnd s) = JSString.trimEnd s.
Proof.
  induction s as [|c s IH]; [reflexivity|].
  rewrite (trimEnd_cons c s). destruct (JSString.trimEnd s) as [|c' r] eqn:E.
  - destruct (JSNumber.isWhiteSpace c) eqn:Hws; [reflexivity|].
    rewrite trimEnd_cons. cbn [JSString.trimEnd]. by rewrite Hws.
  - rewrite (trimEnd_cons c (String c' r)), IH. reflexivity.
Qed.

Lemma trimStart_head s :
  JSNumber.trimStart s = EmptyString
  \/ exists c r, JSNumber.trimStart s = String c r /\ JSNumber.isWhiteSpace c = false.
Proof.
  induction s as [|c s IH]; [by left|].
  cbn. destruct (JSNumber.isWhiteSpace c) eqn:Hws; [exact IH|].
  right. by exists c, s.
Qed.

Lemma trim_idem s : JSString.trim (JSString.trim s) = JSString.trim s.
Proof.
  unfold JSString.trim.
  destruct (trimStart_head s) as [->|(c & r & -> & Hws)]; [reflexivity|].
  destruct (trimEnd_head c r) as [E|[r' E]]; rewrite E; [reflexivity|].
  cbn [JSNumber.trimStart]. rewrite Hws, <- E. apply trimEnd_idem.
Qed.

(** X23.  For a name typed in ASCII characters: the name that the
    dialog hands to the store is the text typed, trimmed; it is never
    empty and has no white space left at either end.  If the store
    answers with the new type, that type is put first in the list and
    selected, and the dialog is cleared and closed; if the store fails,
    nothing changes. *)
Theorem new_type_name_is_trimmed created c requested :
  JSString.isAscii (newTypeName c) = true ->
  CreateWorkoutType requested ∈ (handleCreateNewType created c).2 ->
  requested = JSString.trim (newTypeName c)
  /\ requested <> EmptyString
  /\ JSString.trim requested = requested
  /\ (handleCreateNewType created c).1
     = match created with
       | Some newType =>
           mkState (newType :: workoutTypes c) (WorkoutType.id newType)
                   EmptyString false
       | None => c
       end.
Proof.
  intros _. unfold handleCreateNewType.
  destruct (JSString.trim (newTypeName c)) as [|ch rest] eqn:E; cbn [ManualEntry.isEmpty].
  - intros Hin. apply list_elem_of_singleton in Hin. discriminate.
  - intros Hin.
    assert (requested = String ch rest) as ->.
    { destruct created; cbn in Hin;
        (apply elem_of_cons in Hin as [[= ->]|Hin]; [done|]);
        apply list_elem_of_singleton in Hin; discriminate. }
    split; [done|]. split; [done|].
    split; [rewrite <- E; apply trim_idem|].
    by destruct created.
Qed.

Lemma new_type_name_is_trimmed_witness :
  JSString.isAscii
    (newTypeName (mkState [WorkoutType.mk "t1" "Running" "u" "then"]
                          EmptyString "  Yoga " true)) = true
  /\ CreateWorkoutType "Yoga"
  ∈ (handleCreateNewType (Some (WorkoutType.mk "t9" "Yoga" "u" "now"))
       (mkState [WorkoutType.mk "t1" "Running" "u" "then"] EmptyString
                "  Yoga " true)).2
  /\ "Yoga"%string
     = JSString.trim
         (newTypeName (mkState [WorkoutType.mk "t1" "Running" "u" "then"]
                               EmptyString "  Yoga " true))
  /\ (handleCreateNewType (Some (WorkoutType.mk "t9" "Yoga" "u" "now"))
        (mkState [WorkoutType.mk "t1" "Running" "u" "then"] EmptyString
                 "  Yoga " true)).1
     = mkState [WorkoutType.mk "t9" "Yoga" "u" "now";
                WorkoutType.mk "t1" "Running" "u" "then"] "t9" EmptyString false.
Proof.
  assert (H : CreateWorkoutType "Yoga"
              ∈ (handleCreateNewType (Some (WorkoutType.mk "t9" "Yoga" "u" "now"))
                   (mkState [WorkoutType.mk "t1" "Running" "u" "then"] EmptyString
                            "  Yoga " true)).2) by apply list_elem_of_here.
  assert (Ha : JSString.isAscii
                 (newTypeName (mkState [WorkoutType.mk "t1" "Running" "u" "then"]
                                       EmptyString "  Yoga " true)) = true)
    by reflexivity.
  split; [exact Ha|]. split; [exact H|].
  split; [exact (proj1 (new_type_name_is_trimmed _ _ _ Ha H))|reflexivity].
Defined.

End NewTypeMore.
